(** * PairAdmin bridge for PuTTY: event channel, interception points and
      terminal window handle

    Embedding of [pairadmin.h], [pairadmin.c] and of the modifications that
    [terminal_modifications.c], [ldisc_modifications.c],
    [window_modifications.c] and [PUTTY_MODIFICATIONS.c] make to PuTTY's
    [terminal.c], [ldisc.c] and [window.c].

    The C code is a handful of statements over two globals, so the embedding
    is a small state-and-trace monad: a computation takes the process state
    and returns a value (or does not return), the new state and the list of
    externally visible actions it performed, oldest first. *)

From Stdlib Require Import ZArith List Bool Lia.
From Stdlib.Strings Require Import Byte.
Import ListNotations.
Open Scope Z_scope.

(** ** pairadmin.h *)

(** [typedef enum { PAIRADMIN_EVENT_OUTPUT = 1, PAIRADMIN_EVENT_INPUT = 2 }
    PairAdminEventType;] *)
Inductive PairAdminEventType : Type :=
| PAIRADMIN_EVENT_OUTPUT
| PAIRADMIN_EVENT_INPUT.

Definition event_code (event : PairAdminEventType) : Z :=
  match event with
  | PAIRADMIN_EVENT_OUTPUT => 1
  | PAIRADMIN_EVENT_INPUT => 2
  end.

(** A pointer is its address; [NULL] is address 0. *)
Definition NULL : Z := 0.

(** [PairAdminCallback]: pointer to a function taking
    [(PairAdminEventType event, const void *data, size_t len)] and returning
    [void] (pairadmin.h:20).  A function pointer is held by address. *)
Definition PairAdminCallback : Type := Z.

(** [typedef void* HWND;] *)
Definition HWND : Type := Z.

(** C truth value of a pointer: [if (p)] takes the branch when [p] is not
    [NULL]. *)
Definition truthy (p : Z) : bool := negb (p =? NULL).

(** A buffer argument ([const char *data], [const void *buf]) is the byte
    sequence it points to; [size_t len] travels beside it as in C. *)
Definition buffer : Type := list byte.

(** An event as a callback receives it: kind, bytes, length. *)
Definition Event : Type := (PairAdminEventType * buffer * Z)%type.

(** ** Process state

    The memory of the one process that PuTTY, the bridge and the observer
    share: the engine's own memory, the bridge's two globals and the
    observer's own state. *)
Record World (Hp Obs : Type) : Type := mkWorld {
  heap : Hp;
  (** [PairAdminCallback pairadmin_callback = NULL;] (pairadmin.c:12),
      declared [extern] in pairadmin.h:23 *)
  pairadmin_callback : PairAdminCallback;
  (** [HWND hwnd_terminal = NULL;] (window_modifications.c:27), no longer
      [static] *)
  hwnd_terminal : HWND;
  observer : Obs
}.
Arguments mkWorld {Hp Obs}.
Arguments heap {Hp Obs}.
Arguments pairadmin_callback {Hp Obs}.
Arguments hwnd_terminal {Hp Obs}.
Arguments observer {Hp Obs}.

(** ** The terminal engine (PuTTY, untouched by the bridge)

    The bridge hooks into PuTTY and is compiled against it; PuTTY's own
    functions are the interface the model is parametric in. *)
Class Engine : Type := {
  (** Everything PuTTY owns: terminal buffers, line discipline, session. *)
  Heap : Type;
  (** [Terminal *] and [Ldisc *]. *)
  Terminal : Type;
  Ldisc : Type;
  (** [void term_data(Terminal *term, const char *data, size_t len)
       { ... existing code ... }] (terminal_modifications.c:15-18). *)
  term_data : Terminal -> buffer -> Z -> Heap -> Heap;
  (** [size_t ldisc_send(Ldisc *ldisc, const void *buf, size_t len)
       { ... existing code ... }] (ldisc_modifications.c:15-18): the
      [size_t] result and the new engine state. *)
  ldisc_send : Ldisc -> buffer -> Z -> Heap -> Z * Heap
}.

(** ** The observer (PairAdmin)

    What a call through a [PairAdminCallback] does.  The callee is given the
    event kind, the pointer and the length, and hands nothing back: the
    type returns [void].  But it is C code running in the engine's process
    and on the engine's thread.  It holds the very pointer the engine passes
    on next, so it can write the bytes ([const] is a promise, not a
    barrier); it can write engine memory; both globals have external
    linkage, so it can store to [pairadmin_callback] and to
    [hwnd_terminal]; and it need not return.  So a call maps the whole
    process state and the buffer to a new state and new buffer content, or
    to [None] when it does not return. *)
Definition Callback (Hp Obs : Type) : Type :=
  PairAdminEventType -> buffer -> Z ->
  World Hp Obs -> option (World Hp Obs * buffer).

Class Observing {E : Engine} : Type := {
  (** State owned by the observer's side. *)
  Observer : Type;
  (** The function found at each address.  At [NULL] it says what a call
      through the null pointer does. *)
  code_at : PairAdminCallback -> Callback Heap Observer
}.

(** What the signature asks of a callback: look at the event, update the
    observer's own state, perhaps re-register or unregister, return.  Such
    a function reads and writes the observer's state and the slot and
    nothing else. *)
Definition Handler (Obs : Type) : Type :=
  PairAdminEventType -> buffer -> Z ->
  Obs -> PairAdminCallback -> Obs * PairAdminCallback.

(** A [Handler] as a callback. *)
Definition observing {Hp Obs : Type} (hd : Handler Obs) : Callback Hp Obs :=
  fun event data len w =>
    let r := hd event data len (observer w) (pairadmin_callback w) in
    Some (mkWorld (heap w) (snd r) (hwnd_terminal w) (fst r), data).

Section Bridge.

Context {E : Engine} {O : Observing}.

(** Process start: both globals carry their initialisers. *)
Definition process_start (h : Heap) (o : Observer) : World Heap Observer :=
  mkWorld h NULL NULL o.

(** Externally visible actions. *)
Inductive Action : Type :=
| Processed (term : Terminal) (data : buffer) (len : Z)
    (** [term_data(term, data, len)] ran: bytes consumed and queued. *)
| Transmitted (ldisc : Ldisc) (buf : buffer) (len : Z)
    (** [ldisc_send(ldisc, buf, len)] ran on these bytes: sent onward. *)
| Notified (f : PairAdminCallback) (event : PairAdminEventType)
           (data : buffer) (len : Z)
    (** the function at [f] was called with [(event, data, len)]. *)
| Stored (c : PairAdminCallback)
    (** another thread's [pairadmin_set_callback(c)] ran to its end. *).

(** *** The monad *)

Record Res (A : Type) : Type := mkRes {
  (** [None]: the computation did not return. *)
  val : option A;
  st : World Heap Observer;
  log : list Action
}.
Arguments mkRes {A}.
Arguments val {A}.
Arguments st {A}.
Arguments log {A}.

Definition M (A : Type) : Type := World Heap Observer -> Res A.

Definition ret {A : Type} (a : A) : M A := fun w => mkRes (Some a) w [].

Definition bind {A B : Type} (m : M A) (k : A -> M B) : M B :=
  fun w =>
    let r1 := m w in
    match val r1 with
    | Some a =>
        let r2 := k a (st r1) in
        mkRes (val r2) (st r2) (log r1 ++ log r2)
    | None => mkRes None (st r1) (log r1)
    end.

Notation "x <- m ;; k" := (bind m (fun x => k))
  (at level 61, m at next level, right associativity).
Notation "m ;; k" := (bind m (fun _ => k))
  (at level 61, right associativity).

(** Reads and writes of the two globals. *)
Definition load_callback : M PairAdminCallback :=
  fun w => mkRes (Some (pairadmin_callback w)) w [].

Definition store_callback (c : PairAdminCallback) : M unit :=
  fun w =>
    mkRes (Some tt) (mkWorld (heap w) c (hwnd_terminal w) (observer w)) [].

Definition load_hwnd : M HWND :=
  fun w => mkRes (Some (hwnd_terminal w)) w [].

Definition store_hwnd (h : HWND) : M unit :=
  fun w =>
    mkRes (Some tt) (mkWorld (heap w) (pairadmin_callback w) h (observer w))
          [].

(** An indirect call through a function pointer.  The result is the content
    of the buffer when the callee returns: it had the pointer. *)
Definition call (f : PairAdminCallback) (event : PairAdminEventType)
    (data : buffer) (len : Z) : M buffer :=
  fun w =>
    match code_at f event data len w with
    | Some (w', data') => mkRes (Some data') w' [Notified f event data len]
    | None => mkRes None w [Notified f event data len]
    end.

(** The engine's two data-path functions, run on the engine's memory. *)
Definition call_term_data (term : Terminal) (data : buffer) (len : Z)
    : M unit :=
  fun w =>
    mkRes (Some tt)
          (mkWorld (term_data term data len (heap w)) (pairadmin_callback w)
                   (hwnd_terminal w) (observer w))
          [Processed term data len].

Definition call_ldisc_send (ldisc : Ldisc) (buf : buffer) (len : Z)
    : M Z :=
  fun w =>
    let r := ldisc_send ldisc buf len (heap w) in
    mkRes (Some (fst r))
          (mkWorld (snd r) (pairadmin_callback w) (hwnd_terminal w)
                   (observer w))
          [Transmitted ldisc buf len].

(** ** pairadmin.c *)

(** [void pairadmin_set_callback(PairAdminCallback callback)
     { pairadmin_callback = callback; }] (pairadmin.c:15-18) *)
Definition pairadmin_set_callback (callback : PairAdminCallback) : M unit :=
  store_callback callback.

(** ** The hooks (PUTTY_MODIFICATIONS.c:18-23 and 43-48) *)

(** The guarded statement both hooks consist of (the spec's [notify]):
    [if (pairadmin_callback) { pairadmin_callback(KIND, data, len); }].
    The global is read for the test and read again for the call.  The
    result is the content of the buffer after the statement. *)
Definition notify (event : PairAdminEventType) (data : buffer) (len : Z)
    : M buffer :=
  c <- load_callback ;;
  if truthy c
  then (f <- load_callback ;; call f event data len)
  else ret data.

(** [void term_data_hook(Terminal *term, const char *data, size_t len)] *)
Definition term_data_hook (term : Terminal) (data : buffer) (len : Z)
    : M buffer :=
  notify PAIRADMIN_EVENT_OUTPUT data len.

(** [void ldisc_send_hook(Ldisc *ldisc, const void *buf, size_t len)] *)
Definition ldisc_send_hook (ldisc : Ldisc) (buf : buffer) (len : Z)
    : M buffer :=
  notify PAIRADMIN_EVENT_INPUT buf len.

(** ** The call sites *)

(** Unmodified PuTTY: [term_data(term, data, len);]
    (PUTTY_MODIFICATIONS.c:27-28). *)
Definition term_data_original (term : Terminal) (data : buffer) (len : Z)
    : M unit :=
  call_term_data term data len.

(** Unmodified PuTTY: [return ldisc_send(ldisc, buf, len);]
    (PUTTY_MODIFICATIONS.c:52-53). *)
Definition ldisc_send_original (ldisc : Ldisc) (buf : buffer) (len : Z)
    : M Z :=
  call_ldisc_send ldisc buf len.

(** Modified output site: the hook follows the [term_data] call
    (PUTTY_MODIFICATIONS.c:30-31), inside [#ifdef PAIRADMIN_INTEGRATION]
    (terminal_modifications.c:25-29). *)
Definition term_data_modified (PAIRADMIN_INTEGRATION : bool)
    (term : Terminal) (data : buffer) (len : Z) : M unit :=
  call_term_data term data len ;;
  (if PAIRADMIN_INTEGRATION then term_data_hook term data len else ret data) ;;
  ret tt.

(** Modified input site: the hook precedes [return ldisc_send(...)]
    (PUTTY_MODIFICATIONS.c:55-56), inside [#ifdef PAIRADMIN_INTEGRATION]
    (ldisc_modifications.c:25-29).  [ldisc_send] is handed the same pointer
    the hook had, so it reads the bytes as the hook left them. *)
Definition ldisc_send_modified (PAIRADMIN_INTEGRATION : bool)
    (ldisc : Ldisc) (buf : buffer) (len : Z) : M Z :=
  buf' <- (if PAIRADMIN_INTEGRATION
           then ldisc_send_hook ldisc buf len
           else ret buf) ;;
  call_ldisc_send ldisc buf' len.

(** ** The hooks with another thread at the slot

    Nothing synchronises [pairadmin_callback]: [pairadmin_set_callback] is a
    plain store and the guarded statement reads the global twice.  Calls of
    [pairadmin_set_callback] made by another thread can therefore run to
    their end at two points inside the statement: between the test and the
    read for the call, and between that read and the call itself. *)
Record Interference : Type := mkInterference {
  after_test : list PairAdminCallback;
  after_load : list PairAdminCallback
}.

(** No other thread at the slot. *)
Definition quiet : Interference := mkInterference [] [].

Fixpoint other_thread_stores (cs : list PairAdminCallback) : M unit :=
  match cs with
  | [] => ret tt
  | c :: rest =>
      pairadmin_set_callback c ;;
      (fun w => mkRes (Some tt) w [Stored c]) ;;
      other_thread_stores rest
  end.

Definition notify_racing (i : Interference) (event : PairAdminEventType)
    (data : buffer) (len : Z) : M buffer :=
  c <- load_callback ;;
  if truthy c
  then (other_thread_stores (after_test i) ;;
        f <- load_callback ;;
        other_thread_stores (after_load i) ;;
        call f event data len)
  else ret data.

Definition term_data_modified_racing (i : Interference)
    (term : Terminal) (data : buffer) (len : Z) : M unit :=
  call_term_data term data len ;;
  notify_racing i PAIRADMIN_EVENT_OUTPUT data len ;;
  ret tt.

Definition ldisc_send_modified_racing (i : Interference)
    (ldisc : Ldisc) (buf : buffer) (len : Z) : M Z :=
  buf' <- notify_racing i PAIRADMIN_EVENT_INPUT buf len ;;
  call_ldisc_send ldisc buf' len.

(** ** window.c *)

(** [HWND putty_get_terminal_hwnd(void) { return hwnd_terminal; }]
    (window_modifications.c:32-35) *)
Definition putty_get_terminal_hwnd : M HWND := load_hwnd.

(** Modelled from the spec: PuTTY's window construction, which is not among
    the modification files.  "Terminal Surface Handle: ... created when the
    terminal window is constructed" (section 3), supplied by the engine's
    "native window-creation routine" (section 6): the engine stores the
    handle it obtained in [hwnd_terminal]. *)
Definition window_created (h : HWND) : M unit := store_hwnd h.

(** Modelled from the spec: PuTTY's window teardown, which is not among the
    modification files.  The handle is "invalidated when that window is
    destroyed" (section 3) and the query returns "a null/invalid sentinel if
    the terminal window ... has already been destroyed" (section 4.3): the
    engine stores [NULL] in [hwnd_terminal]. *)
Definition window_destroyed : M unit := store_hwnd NULL.

(** ** Sessions: what the engine's thread does, call by call *)

(** A chunk of the data path: output bytes arriving at the [term_data] call
    site, or input bytes arriving at the [ldisc_send] call site. *)
Inductive Chunk : Type :=
| Output (term : Terminal) (data : buffer) (len : Z)
| Input (ldisc : Ldisc) (buf : buffer) (len : Z).

Inductive Op : Type :=
| Data (c : Chunk)
| SetCallback (callback : PairAdminCallback)
| GetHwnd
| WindowCreated (h : HWND)
| WindowDestroyed.

(** What a data-path call site hands back to the engine code around it:
    nothing for [term_data], the [size_t] result for [ldisc_send]. *)
Inductive Value : Type :=
| VVoid
| VSize (n : Z).

Definition process (PAIRADMIN_INTEGRATION : bool) (c : Chunk) : M Value :=
  match c with
  | Output term data len =>
      term_data_modified PAIRADMIN_INTEGRATION term data len ;; ret VVoid
  | Input ldisc buf len =>
      n <- ldisc_send_modified PAIRADMIN_INTEGRATION ldisc buf len ;;
      ret (VSize n)
  end.

Definition process_original (c : Chunk) : M Value :=
  match c with
  | Output term data len => term_data_original term data len ;; ret VVoid
  | Input ldisc buf len =>
      n <- ldisc_send_original ldisc buf len ;; ret (VSize n)
  end.

(** One call of the session; the result lists what went back into the data
    path (one value per chunk, none for the other calls). *)
Definition exec (PAIRADMIN_INTEGRATION : bool) (op : Op) : M (list Value) :=
  match op with
  | Data c => v <- process PAIRADMIN_INTEGRATION c ;; ret [v]
  | SetCallback callback => pairadmin_set_callback callback ;; ret []
  | GetHwnd => putty_get_terminal_hwnd ;; ret []
  | WindowCreated h => window_created h ;; ret []
  | WindowDestroyed => window_destroyed ;; ret []
  end.

Fixpoint run (PAIRADMIN_INTEGRATION : bool) (ops : list Op)
    : M (list Value) :=
  match ops with
  | [] => ret []
  | op :: rest =>
      vs1 <- exec PAIRADMIN_INTEGRATION op ;;
      vs2 <- run PAIRADMIN_INTEGRATION rest ;;
      ret (vs1 ++ vs2)
  end.

(** The unmodified engine fed the same chunks. *)
Fixpoint run_original (cs : list Chunk) : M (list Value) :=
  match cs with
  | [] => ret []
  | c :: rest =>
      v <- process_original c ;;
      vs <- run_original rest ;;
      ret (v :: vs)
  end.

Fixpoint chunks_of (ops : list Op) : list Chunk :=
  match ops with
  | [] => []
  | Data c :: rest => c :: chunks_of rest
  | _ :: rest => chunks_of rest
  end.

(** What the engine's two functions make of its memory over a list of
    chunks, read off [term_data] and [ldisc_send] directly. *)
Fixpoint engine_memory (cs : list Chunk) (h : Heap) : Heap :=
  match cs with
  | [] => h
  | Output term data len :: rest =>
      engine_memory rest (term_data term data len h)
  | Input ldisc buf len :: rest =>
      engine_memory rest (snd (ldisc_send ldisc buf len h))
  end.

(** ** Reading a log *)

Definition event_of (c : Chunk) : Event :=
  match c with
  | Output _ data len => (PAIRADMIN_EVENT_OUTPUT, data, len)
  | Input _ buf len => (PAIRADMIN_EVENT_INPUT, buf, len)
  end.

(** What the engine itself does with a chunk. *)
Definition engine_action (c : Chunk) : Action :=
  match c with
  | Output term data len => Processed term data len
  | Input ldisc buf len => Transmitted ldisc buf len
  end.

(** The callback invocations of a log, in order: who was called, with
    what. *)
Fixpoint delivered (l : list Action) : list (PairAdminCallback * Event) :=
  match l with
  | [] => []
  | Notified f event data len :: rest =>
      (f, (event, data, len)) :: delivered rest
  | _ :: rest => delivered rest
  end.

(** The engine's own actions of a log, in order. *)
Fixpoint data_path (l : list Action) : list Action :=
  match l with
  | [] => []
  | Processed term data len :: rest =>
      Processed term data len :: data_path rest
  | Transmitted ldisc buf len :: rest =>
      Transmitted ldisc buf len :: data_path rest
  | _ :: rest => data_path rest
  end.

(** Whether a computation is stuck in a call. *)
Definition stuck_in_call {A : Type} (r : Res A) : bool :=
  match val r with
  | Some _ => false
  | None => true
  end.

(** What the engine can tell of a computation: the values it got back, its
    own memory, its own actions. *)
Definition engine_view {A : Type} (r : Res A)
    : option A * Heap * list Action :=
  (val r, heap (st r), data_path (log r)).

(** Logs made of the blocks a call site can produce: an engine action on
    its own, [term_data] followed by the OUTPUT call for the same bytes and
    length, or the INPUT call followed by [ldisc_send] for the same length.
    With [stuck] a log may end in an INPUT call that did not return. *)
Inductive hooked : bool -> list Action -> Prop :=
| hooked_nil stuck : hooked stuck []
| hooked_stuck f buf len :
    hooked true [Notified f PAIRADMIN_EVENT_INPUT buf len]
| hooked_processed stuck term data len l :
    hooked stuck l -> hooked stuck (Processed term data len :: l)
| hooked_transmitted stuck ldisc buf len l :
    hooked stuck l -> hooked stuck (Transmitted ldisc buf len :: l)
| hooked_output stuck term data len f l :
    hooked stuck l ->
    hooked stuck (Processed term data len
                    :: Notified f PAIRADMIN_EVENT_OUTPUT data len :: l)
| hooked_input stuck ldisc buf buf' len f l :
    hooked stuck l ->
    hooked stuck (Notified f PAIRADMIN_EVENT_INPUT buf len
                    :: Transmitted ldisc buf' len :: l).

(** The calls of a session that are not the engine's window events. *)
Definition no_window_event (op : Op) : bool :=
  match op with
  | WindowCreated _ | WindowDestroyed => false
  | _ => true
  end.


(** ** What a callback may be known to do *)

(** [hands_over h g]: called while it is the registered one, the function
    at [h] returns and leaves [g] in the slot. *)
Definition hands_over (h g : PairAdminCallback) : Prop :=
  forall event data len w,
    pairadmin_callback w = h ->
    exists w' data',
      code_at h event data len w = Some (w', data')
      /\ pairadmin_callback w' = g.

(** [keeps_registered h]: the function at [h] returns and never overwrites
    the slot while it is the registered one. *)
Definition keeps_registered (h : PairAdminCallback) : Prop :=
  hands_over h h.

(** [leaves_slot_alone]: every callback of the observer, called through a
    non-null pointer, returns, and none ever writes the slot. *)
Definition leaves_slot_alone : Prop :=
  forall f event data len w,
    f <> NULL ->
    exists w' data',
      code_at f event data len w = Some (w', data')
      /\ pairadmin_callback w' = pairadmin_callback w.

(** [leaves_hwnd_alone]: every callback of the observer, called through a
    non-null pointer, returns, and none ever writes [hwnd_terminal]. *)
Definition leaves_hwnd_alone : Prop :=
  forall f event data len w,
    f <> NULL ->
    exists w' data',
      code_at f event data len w = Some (w', data')
      /\ hwnd_terminal w' = hwnd_terminal w.

(** [harmless]: every callback of the observer, called through a non-null
    pointer, returns, has left the bytes it was shown as they were and has
    not written engine memory. *)
Definition harmless : Prop :=
  forall f event data len w,
    f <> NULL ->
    exists w',
      code_at f event data len w = Some (w', data)
      /\ heap w' = heap w.

(** [observes hd h]: the function at [h] is the handler [hd]: it keeps to
    what the signature asks. *)
Definition observes (hd : Handler Observer) (h : PairAdminCallback) : Prop :=
  forall event data len w,
    code_at h event data len w = observing hd event data len w.

(** [observational hds]: every function behind a non-null pointer keeps to
    what the signature asks, [hds f] being the handler at [f]. *)
Definition observational (hds : PairAdminCallback -> Handler Observer)
    : Prop :=
  forall f, f <> NULL -> observes (hds f) f.

(** What one delivery does to the observer's state when the callbacks are
    the handlers [hds]: the function called finds its own address in the
    slot, since the hook has just read it from there. *)
Definition replay (hds : PairAdminCallback -> Handler Observer)
    (o : Observer) (d : PairAdminCallback * Event) : Observer :=
  fst (hds (fst d) (fst (fst (snd d))) (snd (fst (snd d))) (snd (snd d))
           o (fst d)).

(** What a handler [hd] registered at [h] makes of the observer's state
    when it is given one chunk. *)
Definition receive (hd : Handler Observer) (h : PairAdminCallback)
    (o : Observer) (c : Chunk) : Observer :=
  fst (hd (fst (fst (event_of c))) (snd (fst (event_of c)))
          (snd (event_of c)) o h).

(** The argument of the last [pairadmin_set_callback] call of a session,
    [slot] if it makes none. *)
Fixpoint last_registration (ops : list Op) (slot : PairAdminCallback)
    : PairAdminCallback :=
  match ops with
  | [] => slot
  | SetCallback callback :: rest => last_registration rest callback
  | _ :: rest => last_registration rest slot
  end.

End Bridge.

Arguments mkRes {E O A}.
Arguments val {E O A}.
Arguments st {E O A}.
Arguments log {E O A}.

(** [subsequence l1 l2]: [l1] is [l2] with some elements left out, the
    others in their order. *)
Inductive subsequence {A : Type} : list A -> list A -> Prop :=
| subsequence_nil : subsequence [] []
| subsequence_skip x l1 l2 : subsequence l1 l2 -> subsequence l1 (x :: l2)
| subsequence_take x l1 l2 :
    subsequence l1 l2 -> subsequence (x :: l1) (x :: l2).

(** ** A small engine and observers to run sessions on *)

(** An engine that keeps the bytes queued for rendering and the bytes sent
    onward, [len] bytes of the buffer each time. *)
Definition plain_engine : Engine := {|
  Heap := buffer * buffer;
  Terminal := unit;
  Ldisc := unit;
  term_data := fun _ data len h =>
    (fst h ++ firstn (Z.to_nat len) data, snd h);
  ldisc_send := fun _ buf len h =>
    (len, (fst h, snd h ++ firstn (Z.to_nat len) buf))
|}.

(** A call through the null pointer does not return. *)
Definition null_call {Hp Obs : Type} : Callback Hp Obs :=
  fun _ _ _ _ => None.

(** Addresses of two handlers. *)
Definition RECORDER : PairAdminCallback := 4096.
Definition ONE_SHOT : PairAdminCallback := 8192.

(** [RECORDER] appends each event to a journal; [ONE_SHOT] does the same and
    then clears the slot; every other function does nothing. *)
Definition journal_code (f : PairAdminCallback) : Handler (list Event) :=
  fun event data len o slot =>
    if f =? RECORDER then (o ++ [(event, data, len)], slot)
    else if f =? ONE_SHOT then (o ++ [(event, data, len)], NULL)
    else (o, slot).

Definition journal : Observing (E := plain_engine) := {|
  Observer := list Event;
  code_at := fun f =>
    if f =? NULL then null_call else observing (journal_code f)
|}.

(** An observer with no state whose functions all do nothing. *)
Definition bystander : Observing (E := plain_engine) := {|
  Observer := unit;
  code_at := fun f =>
    if f =? NULL then null_call
    else observing (fun _ _ _ o slot => (o, slot))
|}.

(** Addresses of two callbacks that do not keep to the signature. *)
Definition SCRIBBLER : PairAdminCallback := 20480.
Definition SLEEPER : PairAdminCallback := 24576.

(** [SCRIBBLER] writes an X over every byte it is shown, through the
    pointer it was given; [SLEEPER] never returns; every other function
    does nothing. *)
Definition intruder : Observing (E := plain_engine) := {|
  Observer := unit;
  code_at := fun f =>
    if f =? NULL then null_call
    else if f =? SCRIBBLER
    then fun _ data _ w => Some (w, map (fun _ => x58) data)
    else if f =? SLEEPER then null_call
    else fun _ data _ w => Some (w, data)
|}.

(** The process right after start, and the same with [RECORDER]
    registered. *)
Definition fresh : World (Heap (Engine := plain_engine))
                         (Observer (Observing := journal)) :=
  process_start (E := plain_engine) (O := journal) ([], []) [].

Definition recording : World (Heap (Engine := plain_engine))
                             (Observer (Observing := journal)) :=
  mkWorld ([], []) RECORDER NULL [].

(** 4096 bytes of output in two chunks of 2048, and one typed line. *)
Definition two_chunks : list (Chunk (E := plain_engine)) :=
  [Output (E := plain_engine) tt (repeat x41 2048) 2048;
   Output (E := plain_engine) tt (repeat x42 2048) 2048].

(** The bytes of "ls -la" and a line feed. *)
Definition ls_line : buffer := [x6c; x73; x20; x2d; x6c; x61; x0a].

Definition typed_line : Chunk (E := plain_engine) :=
  Input (E := plain_engine) tt ls_line 7.

(** * Properties *)

(** ** Reading logs *)

Section Logs.

Context {E : Engine}.

Lemma delivered_app (l1 l2 : list Action) :
  delivered (l1 ++ l2) = delivered l1 ++ delivered l2.
Proof.
  induction l1 as [|a l1 IH]; [reflexivity|].
  destruct a; cbn [app delivered]; rewrite IH; reflexivity.
Qed.

Lemma data_path_app (l1 l2 : list Action) :
  data_path (l1 ++ l2) = data_path l1 ++ data_path l2.
Proof.
  induction l1 as [|a l1 IH]; [reflexivity|].
  destruct a; cbn [app data_path]; rewrite IH; reflexivity.
Qed.

End Logs.

Lemma truthy_NULL : truthy NULL = false.
Proof. reflexivity. Qed.

Lemma truthy_set (p : Z) : p <> NULL -> truthy p = true.
Proof.
  intros Hp. unfold truthy. apply negb_true_iff, Z.eqb_neq, Hp.
Qed.

Lemma truthy_spec (p : Z) : truthy p = false <-> p = NULL.
Proof.
  unfold truthy. rewrite negb_false_iff. apply Z.eqb_eq.
Qed.


(** ** The hooks and the call sites, one call at a time *)

Section Calls.

Context {E : Engine} {O : Observing}.

Implicit Types (w : World Heap Observer) (c : Chunk)
  (event : PairAdminEventType) (data buf : buffer) (len : Z)
  (h f : PairAdminCallback).

(** With an empty slot the hook does nothing at all. *)
Lemma notify_unregistered event data len w :
  pairadmin_callback w = NULL ->
  notify event data len w = mkRes (Some data) w [].
Proof.
  intros Hw. unfold notify, bind, load_callback; cbn.
  rewrite Hw, truthy_NULL. reflexivity.
Qed.

(** With a function in the slot the hook is one call of that function. *)
Lemma notify_registered event data len w :
  pairadmin_callback w <> NULL ->
  notify event data len w = call (pairadmin_callback w) event data len w.
Proof.
  intros Hw. unfold notify, bind, load_callback; cbn.
  rewrite (truthy_set _ Hw). cbn.
  destruct (call (pairadmin_callback w) event data len w) as [[v|] s l];
    reflexivity.
Qed.

Lemma term_data_modified_unregistered term data len w :
  pairadmin_callback w = NULL ->
  term_data_modified true term data len w = term_data_original term data len w.
Proof.
  intros Hw. unfold term_data_modified, term_data_hook.
  unfold bind at 1. cbn [call_term_data val st log].
  unfold bind. rewrite notify_unregistered by exact Hw. reflexivity.
Qed.

Lemma ldisc_send_modified_unregistered ldisc buf len w :
  pairadmin_callback w = NULL ->
  ldisc_send_modified true ldisc buf len w = ldisc_send_original ldisc buf len w.
Proof.
  intros Hw. unfold ldisc_send_modified, ldisc_send_hook, bind.
  rewrite notify_unregistered by exact Hw. reflexivity.
Qed.

(** Output site with a function in the slot: [term_data] runs on the
    incoming state, then the function is called on the state [term_data]
    left; the site returns if the function does. *)
Lemma term_data_modified_registered term data len w :
  pairadmin_callback w <> NULL ->
  term_data_modified true term data len w =
  match code_at (pairadmin_callback w) PAIRADMIN_EVENT_OUTPUT data len
                (st (call_term_data term data len w)) with
  | Some (w', _) =>
      mkRes (Some tt) w'
            [Processed term data len;
             Notified (pairadmin_callback w) PAIRADMIN_EVENT_OUTPUT data len]
  | None =>
      mkRes None (st (call_term_data term data len w))
            [Processed term data len;
             Notified (pairadmin_callback w) PAIRADMIN_EVENT_OUTPUT data len]
  end.
Proof.
  intros Hw. unfold term_data_modified, term_data_hook.
  unfold bind at 1. cbn [call_term_data val st log].
  unfold bind. rewrite notify_registered by exact Hw.
  unfold call. cbn [pairadmin_callback].
  destruct (code_at (pairadmin_callback w) PAIRADMIN_EVENT_OUTPUT data len _)
    as [[w' data']|]; reflexivity.
Qed.

(** Input site with a function in the slot: the function is called on the
    incoming state; if it returns, [ldisc_send] runs on the state and the
    bytes it left, and its result is the site's result. *)
Lemma ldisc_send_modified_registered ldisc buf len w :
  pairadmin_callback w <> NULL ->
  ldisc_send_modified true ldisc buf len w =
  match code_at (pairadmin_callback w) PAIRADMIN_EVENT_INPUT buf len w with
  | Some (w', buf') =>
      mkRes (Some (fst (ldisc_send ldisc buf' len (heap w'))))
            (mkWorld (snd (ldisc_send ldisc buf' len (heap w')))
                     (pairadmin_callback w') (hwnd_terminal w')
                     (observer w'))
            [Notified (pairadmin_callback w) PAIRADMIN_EVENT_INPUT buf len;
             Transmitted ldisc buf' len]
  | None =>
      mkRes None w
            [Notified (pairadmin_callback w) PAIRADMIN_EVENT_INPUT buf len]
  end.
Proof.
  intros Hw. unfold ldisc_send_modified, ldisc_send_hook, bind.
  rewrite notify_registered by exact Hw. unfold call.
  destruct (code_at (pairadmin_callback w) PAIRADMIN_EVENT_INPUT buf len w)
    as [[w' buf']|]; reflexivity.
Qed.

(** With the switch off, a chunk is processed by the original statements. *)
Lemma process_disabled c w : process false c w = process_original c w.
Proof. destruct c; reflexivity. Qed.

Lemma process_unregistered c w :
  pairadmin_callback w = NULL ->
  process true c w = process_original c w.
Proof.
  intros Hw. destruct c as [term data len|ldisc buf len]; unfold process, bind.
  - rewrite term_data_modified_unregistered by exact Hw. reflexivity.
  - rewrite ldisc_send_modified_unregistered by exact Hw. reflexivity.
Qed.

(** The original statements return, never touch the bridge's globals or the
    observer, and make of the engine's memory what the engine's function
    makes of it. *)
Lemma process_original_frame c w :
  pairadmin_callback (st (process_original c w)) = pairadmin_callback w
  /\ hwnd_terminal (st (process_original c w)) = hwnd_terminal w
  /\ observer (st (process_original c w)) = observer w
  /\ log (process_original c w) = [engine_action c]
  /\ heap (st (process_original c w)) = engine_memory [c] (heap w)
  /\ val (process_original c w) <> None.
Proof. destruct c; repeat split; discriminate. Qed.

(** A chunk reaches the function in the slot, and only that one, whatever
    that function then does. *)
Lemma process_delivers c w :
  delivered (log (process true c w)) =
  if truthy (pairadmin_callback w)
  then [(pairadmin_callback w, event_of c)]
  else [].
Proof.
  destruct (Z.eq_dec (pairadmin_callback w) NULL) as [Hw|Hw].
  - rewrite process_unregistered by exact Hw.
    rewrite (proj2 (truthy_spec _) Hw).
    destruct (process_original_frame c w) as (_ & _ & _ & Hl & _).
    rewrite Hl. destruct c; reflexivity.
  - rewrite (truthy_set _ Hw).
    destruct c as [term data len|ldisc buf len]; unfold process, bind.
    + rewrite term_data_modified_registered by exact Hw.
      destruct (code_at _ _ _ _ _) as [[w' data']|]; reflexivity.
    + rewrite ldisc_send_modified_registered by exact Hw.
      destruct (code_at _ _ _ _ _) as [[w' buf']|]; reflexivity.
Qed.

(** What one chunk delivers, for either setting of the switch. *)
Lemma process_delivers_any (flag : bool) c w :
  delivered (log (process flag c w)) =
  if flag && truthy (pairadmin_callback w)
  then [(pairadmin_callback w, event_of c)]
  else [].
Proof.
  destruct flag; cbn [andb]; [apply process_delivers|].
  rewrite process_disabled.
  destruct (process_original_frame c w) as (_ & _ & _ & Hl & _).
  rewrite Hl. destruct c; reflexivity.
Qed.

(** A chunk processed while a function is registered that returns: the
    state afterwards is the state the function left, with the engine's own
    step before it (output) or after it (input). *)
Lemma process_registered_returns c w w' data' :
  pairadmin_callback w <> NULL ->
  code_at (pairadmin_callback w) (fst (fst (event_of c)))
          (snd (fst (event_of c))) (snd (event_of c))
          (match c with
           | Output term data len => st (call_term_data term data len w)
           | Input _ _ _ => w
           end) = Some (w', data') ->
  val (process true c w) <> None
  /\ pairadmin_callback (st (process true c w)) = pairadmin_callback w'
  /\ hwnd_terminal (st (process true c w)) = hwnd_terminal w'
  /\ observer (st (process true c w)) = observer w'
  /\ heap (st (process true c w))
     = match c with
       | Output _ _ _ => heap w'
       | Input ldisc _ len => snd (ldisc_send ldisc data' len (heap w'))
       end.
Proof.
  intros Hw Hc.
  destruct c as [term data len|ldisc buf len]; unfold process, bind;
    cbn [event_of fst snd] in Hc.
  - rewrite term_data_modified_registered by exact Hw. rewrite Hc.
    repeat split. discriminate.
  - rewrite ldisc_send_modified_registered by exact Hw. rewrite Hc.
    repeat split. discriminate.
Qed.

End Calls.

(** ** Sessions, one call after another *)

Section Sessions.

Context {E : Engine} {O : Observing}.

Implicit Types (w : World Heap Observer).

Lemma run_cons (flag : bool) (op : Op) (ops : list Op) w :
  run flag (op :: ops) w =
  match val (exec flag op w) with
  | Some vs1 =>
      mkRes (option_map (app vs1) (val (run flag ops (st (exec flag op w)))))
            (st (run flag ops (st (exec flag op w))))
            (log (exec flag op w) ++ log (run flag ops (st (exec flag op w))))
  | None => mkRes None (st (exec flag op w)) (log (exec flag op w))
  end.
Proof.
  cbn [run]. unfold bind at 1.
  destruct (val (exec flag op w)) as [vs1|]; [|reflexivity].
  unfold bind. cbn [val st log ret].
  destruct (val (run flag ops (st (exec flag op w)))) as [vs2|];
    cbn [val st log option_map]; [rewrite app_nil_r|]; reflexivity.
Qed.

Lemma run_original_cons (c : Chunk) (cs : list Chunk) w :
  run_original (c :: cs) w =
  match val (process_original c w) with
  | Some v =>
      mkRes (option_map (cons v)
               (val (run_original cs (st (process_original c w)))))
            (st (run_original cs (st (process_original c w))))
            (log (process_original c w)
               ++ log (run_original cs (st (process_original c w))))
  | None => mkRes None (st (process_original c w)) (log (process_original c w))
  end.
Proof.
  cbn [run_original]. unfold bind at 1.
  destruct (val (process_original c w)) as [v|]; [|reflexivity].
  unfold bind. cbn [val st log ret].
  destruct (val (run_original cs (st (process_original c w)))) as [vs|];
    cbn [val st log option_map]; [rewrite app_nil_r|]; reflexivity.
Qed.

Lemma exec_data (flag : bool) (c : Chunk) w :
  exec flag (Data c) w =
  mkRes (option_map (fun v => [v]) (val (process flag c w)))
        (st (process flag c w)) (log (process flag c w)).
Proof.
  cbn [exec]. unfold bind.
  destruct (val (process flag c w)) as [v|]; cbn [val st log ret option_map];
    [rewrite app_nil_r|]; reflexivity.
Qed.

(** The calls that are not chunks return, leave the data path and the
    observer alone and call nobody. *)
Lemma exec_control (flag : bool) (op : Op) w :
  (forall c, op <> Data c) ->
  val (exec flag op w) = Some [] /\ heap (st (exec flag op w)) = heap w
  /\ log (exec flag op w) = [] /\ observer (st (exec flag op w)) = observer w.
Proof.
  intros Hop. destruct op; try (repeat split; reflexivity).
  exfalso. eapply Hop. reflexivity.
Qed.

(** A session is its first part followed, if that returns, by the rest. *)
Lemma run_app (flag : bool) (ops1 ops2 : list Op) :
  forall w,
    run flag (ops1 ++ ops2) w =
    match val (run flag ops1 w) with
    | Some vs1 =>
        mkRes (option_map (app vs1)
                 (val (run flag ops2 (st (run flag ops1 w)))))
              (st (run flag ops2 (st (run flag ops1 w))))
              (log (run flag ops1 w)
                 ++ log (run flag ops2 (st (run flag ops1 w))))
    | None => mkRes None (st (run flag ops1 w)) (log (run flag ops1 w))
    end.
Proof.
  induction ops1 as [|op ops1 IH]; intros w.
  - cbn. destruct (run flag ops2 w) as [[v|] s l]; reflexivity.
  - cbn [app]. rewrite !run_cons.
    destruct (val (exec flag op w)) as [vs0|]; [|reflexivity].
    rewrite IH. cbn [val st log].
    destruct (val (run flag ops1 (st (exec flag op w)))) as [vs1|];
      cbn [val st log option_map]; [|reflexivity].
    rewrite !app_assoc.
    destruct (val (run flag ops2 _)) as [vs2|]; cbn [option_map];
      [rewrite app_assoc|]; reflexivity.
Qed.

(** The unmodified engine returns, calls nobody and leaves the bridge's
    globals and the observer as they were; its log is its own actions and
    its memory what its two functions make of it. *)
Lemma run_original_frame (cs : list Chunk) :
  forall w,
    pairadmin_callback (st (run_original cs w)) = pairadmin_callback w
    /\ hwnd_terminal (st (run_original cs w)) = hwnd_terminal w
    /\ observer (st (run_original cs w)) = observer w
    /\ log (run_original cs w) = map engine_action cs
    /\ heap (st (run_original cs w)) = engine_memory cs (heap w)
    /\ exists vs, val (run_original cs w) = Some vs /\ length vs = length cs.
Proof.
  induction cs as [|c cs IH]; intros w.
  - repeat split; try reflexivity. exists []. split; reflexivity.
  - rewrite run_original_cons.
    destruct (process_original_frame c w) as (Hs & Hh & Ho & Hl & Hm & Hv).
    destruct (val (process_original c w)) as [v|]; [|contradiction].
    cbn [val st log map].
    destruct (IH (st (process_original c w)))
      as (IHs & IHh & IHo & IHl & IHm & vs & IHv & IHn).
    rewrite IHs, IHh, IHo, IHl, IHm, IHv, Hs, Hh, Ho, Hl, Hm.
    repeat split.
    + destruct c; reflexivity.
    + exists (v :: vs). split; [reflexivity|]. cbn [length]. rewrite IHn.
      reflexivity.
Qed.

Lemma delivered_engine_actions (cs : list Chunk) :
  delivered (map engine_action cs) = [].
Proof.
  induction cs as [|c cs IH]; [reflexivity|]. destruct c; exact IH.
Qed.

Lemma data_path_engine_actions (cs : list Chunk) :
  data_path (map engine_action cs) = map engine_action cs.
Proof.
  induction cs as [|c cs IH]; [reflexivity|].
  destruct c; cbn [map engine_action data_path]; rewrite IH; reflexivity.
Qed.

(** With an empty slot the modified engine is the unmodified one, chunk
    after chunk. *)
Lemma run_unregistered (cs : list Chunk) :
  forall w,
    pairadmin_callback w = NULL ->
    run true (map Data cs) w = run_original cs w.
Proof.
  induction cs as [|c cs IH]; intros w Hw; [reflexivity|].
  cbn [map]. rewrite run_cons, run_original_cons, exec_data.
  cbn [val st log]. rewrite process_unregistered by exact Hw.
  destruct (process_original_frame c w) as (Hs & _).
  destruct (val (process_original c w)) as [v|]; cbn [option_map];
    [|reflexivity].
  rewrite IH by (rewrite Hs; exact Hw). reflexivity.
Qed.

(** With the switch off the modified engine is the unmodified one, chunk
    after chunk, whatever the slot holds. *)
Lemma run_disabled (cs : list Chunk) :
  forall w, run false (map Data cs) w = run_original cs w.
Proof.
  induction cs as [|c cs IH]; intros w; [reflexivity|].
  cbn [map]. rewrite run_cons, run_original_cons, exec_data.
  cbn [val st log]. rewrite process_disabled.
  destruct (val (process_original c w)) as [v|]; cbn [option_map];
    [|reflexivity].
  rewrite IH. reflexivity.
Qed.

End Sessions.

(** ** What the engine can tell *)

Section Views.

Context {E : Engine} {O1 O2 : Observing}.

(** The engine's view of a processed chunk is that of the original
    statement run on the same engine memory, whatever the slot and the
    observer are, as long as the callbacks that can be reached are
    harmless. *)
Lemma process_view (flag : bool) (c : Chunk)
    (w1 : World Heap (Observer (Observing := O1)))
    (w2 : World Heap (Observer (Observing := O2))) :
  (flag = true -> harmless (O := O1)) ->
  heap w1 = heap w2 ->
  engine_view (process flag c w1) = engine_view (process_original c w2).
Proof.
  intros Hharm Hh.
  assert (Ho : engine_view (process_original c w1)
               = engine_view (process_original c w2)).
  { destruct c; unfold engine_view; cbn; rewrite Hh; reflexivity. }
  destruct flag; [|rewrite process_disabled; exact Ho].
  destruct (Z.eq_dec (pairadmin_callback w1) NULL) as [Hw|Hw].
  - rewrite process_unregistered by exact Hw. exact Ho.
  - rewrite <- Ho. specialize (Hharm eq_refl).
    destruct c as [term data len|ldisc buf len]; unfold process, bind.
    + rewrite term_data_modified_registered by exact Hw.
      destruct (Hharm (pairadmin_callback w1) PAIRADMIN_EVENT_OUTPUT data len
                      (st (call_term_data term data len w1)) Hw)
        as (w' & Hc & Hheap).
      rewrite Hc. unfold engine_view; cbn. rewrite Hheap. reflexivity.
    + rewrite ldisc_send_modified_registered by exact Hw.
      destruct (Hharm (pairadmin_callback w1) PAIRADMIN_EVENT_INPUT buf len
                      w1 Hw) as (w' & Hc & Hheap).
      rewrite Hc. unfold engine_view; cbn. rewrite Hheap. reflexivity.
Qed.

Lemma run_view (flag : bool) (ops : list Op) :
  (flag = true -> harmless (O := O1)) ->
  forall (w1 : World Heap (Observer (Observing := O1)))
         (w2 : World Heap (Observer (Observing := O2))),
    heap w1 = heap w2 ->
    engine_view (run flag ops w1)
    = engine_view (run_original (chunks_of ops) w2).
Proof.
  intros Hharm. induction ops as [|op ops IH]; intros w1 w2 Hh.
  - unfold engine_view; cbn. rewrite Hh. reflexivity.
  - rewrite run_cons.
    destruct op as [c| | | |].
    1: { pose proof (process_view flag c w1 w2 Hharm Hh) as Hc.
         unfold engine_view in Hc. injection Hc as Hv Hheap Hlog.
         specialize (IH _ _ Hheap).
         unfold engine_view in IH. injection IH as IHv IHheap IHlog.
         cbn [chunks_of]. rewrite run_original_cons, exec_data.
         cbn [val st log]. rewrite Hv.
         destruct (process_original_frame c w2) as (_ & _ & _ & _ & _ & Hn).
         destruct (val (process_original c w2)) as [v|]; [|contradiction].
         unfold engine_view; cbn [val st log option_map].
         rewrite !data_path_app, Hlog, IHv, IHheap, IHlog.
         destruct (val (run_original (chunks_of ops) _)); reflexivity. }
    all: lazymatch goal with
         | |- context [exec ?f ?o ?w] =>
             generalize (exec_control f o w ltac:(discriminate));
             generalize (exec f o w); intros r (Hv & Hheap & Hlog & _);
             specialize (IH (st r) w2 (eq_trans Hheap Hh));
             unfold engine_view in IH; injection IH as IHv IHheap IHlog;
             rewrite Hv; unfold engine_view; cbn [val st log chunks_of];
             rewrite Hlog, IHv, IHheap; cbn [app]; rewrite IHlog;
             destruct (val (run_original (chunks_of ops) w2)); reflexivity
         end.
Qed.

End Views.

(** ** Sessions as a whole *)

Section Runs.

Context {E : Engine} {O : Observing}.

Implicit Types (w : World Heap Observer).

(** With the switch off no call of a session reaches a callback. *)
Lemma run_disabled_silent (ops : list Op) :
  forall w,
    delivered (log (run false ops w)) = []
    /\ observer (st (run false ops w)) = observer w.
Proof.
  induction ops as [|op ops IH]; intros w; [split; reflexivity|].
  rewrite run_cons.
  assert (H : val (exec false op w) <> None
              /\ delivered (log (exec false op w)) = []
              /\ observer (st (exec false op w)) = observer w).
  { destruct op as [c| | | |]; try (repeat split; discriminate).
    rewrite exec_data; cbn [val st log]. rewrite process_disabled.
    destruct (process_original_frame c w) as (_ & _ & Ho & Hl & _ & Hv).
    rewrite Ho, Hl. repeat split.
    - destruct (val (process_original c w)); [discriminate|contradiction].
    - destruct c; reflexivity. }
  destruct H as (Hv & Hd & Ho).
  destruct (val (exec false op w)) as [vs|]; [|contradiction].
  cbn [st log]. rewrite delivered_app, Hd.
  destruct (IH (st (exec false op w))) as (IHd & IHo).
  rewrite IHd, IHo, Ho. split; reflexivity.
Qed.

(** The default of [last] only matters for the empty list. *)
Lemma last_cons_default {A : Type} (a : A) (l : list A) (d : A) :
  last (a :: l) d = last l a.
Proof.
  revert a d. induction l as [|b l IH]; intros a d; [reflexivity|].
  change (last (a :: b :: l) d) with (last (b :: l) d).
  rewrite (IH b d). symmetry. apply IH.
Qed.

Lemma run_registrations (flag : bool) (cbs : list PairAdminCallback) :
  forall w,
    pairadmin_callback (st (run flag (map SetCallback cbs) w))
    = last cbs (pairadmin_callback w).
Proof.
  induction cbs as [|cb cbs IH]; intros w; [reflexivity|].
  cbn [map]. rewrite run_cons; cbn [exec bind pairadmin_set_callback
    store_callback ret val st log]. rewrite IH.
  rewrite last_cons_default. reflexivity.
Qed.

(** Chunks processed while [h] is registered and keeps itself registered
    all go to [h], and the session returns. *)
Lemma run_chunks_registered (h : PairAdminCallback) (cs : list Chunk) :
  forall w,
    h <> NULL -> pairadmin_callback w = h -> keeps_registered h ->
    delivered (log (run true (map Data cs) w))
    = map (fun c => (h, event_of c)) cs
    /\ pairadmin_callback (st (run true (map Data cs) w)) = h
    /\ val (run true (map Data cs) w) <> None.
Proof.
  induction cs as [|c cs IH]; intros w Hh Hw Hk.
  - repeat split; [exact Hw|discriminate].
  - cbn [map]. rewrite run_cons, exec_data. cbn [val st log].
    assert (Hw' : pairadmin_callback w <> NULL) by (rewrite Hw; exact Hh).
    destruct (Hk (fst (fst (event_of c))) (snd (fst (event_of c)))
                 (snd (event_of c))
                 (match c with
                  | Output term data len => st (call_term_data term data len w)
                  | Input _ _ _ => w
                  end)) as (w' & data' & Hc & Hs').
    { destruct c; exact Hw. }
    rewrite <- Hw in Hc.
    destruct (process_registered_returns c w w' data' Hw' Hc)
      as (Hv & Hs & _).
    destruct (val (process true c w)) as [v|]; [|contradiction].
    cbn [option_map val st log].
    destruct (IH (st (process true c w)) Hh (eq_trans Hs Hs') Hk)
      as (IHd & IHs & IHv).
    rewrite delivered_app, process_delivers, (truthy_set _ Hw'), IHd, IHs, Hw.
    repeat split.
    destruct (val (run true (map Data cs) _)); [discriminate|contradiction].
Qed.

(** What the slot holds after a chunk when the callbacks leave it alone. *)
Lemma process_slot (flag : bool) (c : Chunk) w :
  leaves_slot_alone ->
  pairadmin_callback (st (process flag c w)) = pairadmin_callback w
  /\ val (process flag c w) <> None.
Proof.
  intros Hl.
  assert (Ho : pairadmin_callback (st (process_original c w))
               = pairadmin_callback w
               /\ val (process_original c w) <> None).
  { destruct (process_original_frame c w) as (Hs & _ & _ & _ & _ & Hv).
    split; assumption. }
  destruct flag; [|rewrite process_disabled; exact Ho].
  destruct (Z.eq_dec (pairadmin_callback w) NULL) as [Hw|Hw].
  - rewrite process_unregistered by exact Hw. exact Ho.
  - destruct (Hl (pairadmin_callback w) (fst (fst (event_of c)))
                 (snd (fst (event_of c))) (snd (event_of c))
                 (match c with
                  | Output term data len => st (call_term_data term data len w)
                  | Input _ _ _ => w
                  end) Hw) as (w' & data' & Hc & Hs').
    destruct (process_registered_returns c w w' data' Hw Hc)
      as (Hv & Hs & _).
    split; [|exact Hv]. rewrite Hs, Hs'. destruct c; reflexivity.
Qed.

Lemma run_slot (flag : bool) (ops : list Op) :
  leaves_slot_alone ->
  forall w,
    pairadmin_callback (st (run flag ops w))
    = last_registration ops (pairadmin_callback w)
    /\ val (run flag ops w) <> None.
Proof.
  intros Hl. induction ops as [|op ops IH]; intros w;
    [split; [reflexivity|discriminate]|].
  rewrite run_cons.
  assert (H : val (exec flag op w) <> None
              /\ last_registration (op :: ops) (pairadmin_callback w)
                 = last_registration ops
                     (pairadmin_callback (st (exec flag op w)))).
  { destruct op as [c| | | |]; try (split; [discriminate|reflexivity]).
    rewrite exec_data; cbn [val st last_registration].
    destruct (process_slot flag c w Hl) as (Hs & Hv). rewrite Hs.
    split; [|reflexivity].
    destruct (val (process flag c w)); [discriminate|contradiction]. }
  destruct H as (Hv & Hlast).
  destruct (val (exec flag op w)) as [vs|]; [|contradiction].
  cbn [val st]. destruct (IH (st (exec flag op w))) as (IHs & IHv).
  rewrite IHs, Hlast. split; [reflexivity|].
  destruct (val (run flag ops _)); [discriminate|contradiction].
Qed.

(** What [hwnd_terminal] holds after a chunk when the callbacks leave it
    alone. *)
Lemma process_hwnd (flag : bool) (c : Chunk) w :
  leaves_hwnd_alone ->
  hwnd_terminal (st (process flag c w)) = hwnd_terminal w
  /\ val (process flag c w) <> None.
Proof.
  intros Hl.
  assert (Ho : hwnd_terminal (st (process_original c w)) = hwnd_terminal w
               /\ val (process_original c w) <> None).
  { destruct (process_original_frame c w) as (_ & Hs & _ & _ & _ & Hv).
    split; assumption. }
  destruct flag; [|rewrite process_disabled; exact Ho].
  destruct (Z.eq_dec (pairadmin_callback w) NULL) as [Hw|Hw].
  - rewrite process_unregistered by exact Hw. exact Ho.
  - destruct (Hl (pairadmin_callback w) (fst (fst (event_of c)))
                 (snd (fst (event_of c))) (snd (event_of c))
                 (match c with
                  | Output term data len => st (call_term_data term data len w)
                  | Input _ _ _ => w
                  end) Hw) as (w' & data' & Hc & Hs').
    destruct (process_registered_returns c w w' data' Hw Hc)
      as (Hv & _ & Hs & _).
    split; [|exact Hv]. rewrite Hs, Hs'. destruct c; reflexivity.
Qed.

Lemma run_hwnd (flag : bool) (ops : list Op) :
  leaves_hwnd_alone ->
  forall w,
    forallb no_window_event ops = true ->
    hwnd_terminal (st (run flag ops w)) = hwnd_terminal w
    /\ val (run flag ops w) <> None.
Proof.
  intros Hl. induction ops as [|op ops IH]; intros w Hops;
    [split; [reflexivity|discriminate]|].
  cbn [forallb] in Hops. apply andb_true_iff in Hops as (Hop & Hops).
  rewrite run_cons.
  assert (H : val (exec flag op w) <> None
              /\ hwnd_terminal (st (exec flag op w)) = hwnd_terminal w).
  { destruct op as [c| | | |]; try discriminate Hop;
      try (split; [discriminate|reflexivity]).
    rewrite exec_data; cbn [val st].
    destruct (process_hwnd flag c w Hl) as (Hs & Hv).
    split; [|exact Hs].
    destruct (val (process flag c w)); [discriminate|contradiction]. }
  destruct H as (Hv & Hs).
  destruct (val (exec flag op w)) as [vs|]; [|contradiction].
  cbn [val st]. destruct (IH (st (exec flag op w)) Hops) as (IHs & IHv).
  rewrite IHs, Hs. split; [reflexivity|].
  destruct (val (run flag ops _)); [discriminate|contradiction].
Qed.

End Runs.

(** ** The shape of session logs *)

Section Shapes.

Context {E : Engine} {O : Observing}.

Implicit Types (w : World Heap Observer).

Lemma hooked_weaken (l : list Action) :
  hooked false l -> forall stuck, hooked stuck l.
Proof.
  intros H stuck. remember false as s eqn:Hs.
  induction H; try discriminate Hs;
    [apply hooked_nil|apply hooked_processed|apply hooked_transmitted
    |apply hooked_output|apply hooked_input]; auto.
Qed.

Lemma hooked_app (stuck : bool) (l1 l2 : list Action) :
  hooked false l1 -> hooked stuck l2 -> hooked stuck (l1 ++ l2).
Proof.
  intros H1 H2. remember false as s eqn:Hs.
  induction H1; try discriminate Hs; cbn [app];
    [exact H2|apply hooked_processed|apply hooked_transmitted
    |apply hooked_output|apply hooked_input]; auto.
Qed.

Lemma process_hooked (flag : bool) (c : Chunk) w :
  hooked (stuck_in_call (process flag c w)) (log (process flag c w)).
Proof.
  assert (Ho : hooked (stuck_in_call (process_original c w))
                      (log (process_original c w))).
  { destruct c; repeat constructor. }
  destruct flag; [|rewrite process_disabled; exact Ho].
  destruct (Z.eq_dec (pairadmin_callback w) NULL) as [Hw|Hw].
  - rewrite process_unregistered by exact Hw. exact Ho.
  - destruct c as [term data len|ldisc buf len]; unfold process, bind.
    + rewrite term_data_modified_registered by exact Hw.
      destruct (code_at _ _ _ _ _) as [[w' data']|]; cbn;
        apply hooked_output, hooked_nil.
    + rewrite ldisc_send_modified_registered by exact Hw.
      destruct (code_at _ _ _ _ _) as [[w' buf']|]; cbn.
      * apply hooked_input, hooked_nil.
      * apply hooked_stuck.
Qed.

(** Every log of a session is made of call-site blocks, and ends in an
    unanswered INPUT call only if the session is stuck in it. *)
Lemma run_hooked (flag : bool) (ops : list Op) :
  forall w, hooked (stuck_in_call (run flag ops w)) (log (run flag ops w)).
Proof.
  induction ops as [|op ops IH]; intros w; [constructor|].
  rewrite run_cons.
  assert (H : hooked (stuck_in_call (exec flag op w)) (log (exec flag op w))).
  { destruct op as [c| | | |]; try constructor.
    rewrite exec_data. pose proof (process_hooked flag c w) as Hp.
    unfold stuck_in_call in *. cbn [val log].
    destruct (val (process flag c w)); exact Hp. }
  unfold stuck_in_call in H |- *.
  destruct (val (exec flag op w)) as [vs|]; cbn [val log]; [|exact H].
  pose proof (IH (st (exec flag op w))) as IH'. unfold stuck_in_call in IH'.
  destruct (val (run flag ops (st (exec flag op w)))) as [vs2|];
    cbn [option_map]; apply hooked_app; assumption.
Qed.

(** In a log made of call-site blocks, an OUTPUT call comes right after
    [term_data] ran on the same bytes and length. *)
Lemma hooked_output_preceded (stuck : bool) (l : list Action) :
  hooked stuck l ->
  forall pre f data len post,
    l = pre ++ Notified f PAIRADMIN_EVENT_OUTPUT data len :: post ->
    exists term pre', pre = pre' ++ [Processed term data len].
Proof.
  induction 1 as [s|f0 buf0 len0|s term0 data0 len0 l Hl IH
                 |s ldisc0 buf0 len0 l Hl IH
                 |s term0 data0 len0 f0 l Hl IH
                 |s ldisc0 buf0 buf0' len0 f0 l Hl IH];
    intros pre f data len post Heq.
  - destruct pre; discriminate Heq.
  - destruct pre as [|a [|b pre]]; discriminate Heq.
  - destruct pre as [|a pre]; [discriminate Heq|].
    injection Heq as Ha Heq. subst a.
    destruct (IH _ _ _ _ _ Heq) as (term & pre' & Hpre). subst pre.
    exists term, (Processed term0 data0 len0 :: pre'). reflexivity.
  - destruct pre as [|a pre]; [discriminate Heq|].
    injection Heq as Ha Heq. subst a.
    destruct (IH _ _ _ _ _ Heq) as (term & pre' & Hpre). subst pre.
    exists term, (Transmitted ldisc0 buf0 len0 :: pre'). reflexivity.
  - destruct pre as [|a [|b pre]]; [discriminate Heq| |].
    + injection Heq as Ha Hf Hd Hn Hpost. subst.
      exists term0, []. reflexivity.
    + injection Heq as Ha Hb Heq. subst a b.
      destruct (IH _ _ _ _ _ Heq) as (term & pre' & Hpre). subst pre.
      exists term,
        (Processed term0 data0 len0
           :: Notified f0 PAIRADMIN_EVENT_OUTPUT data0 len0 :: pre').
      reflexivity.
  - destruct pre as [|a [|b pre]]; [discriminate Heq|discriminate Heq|].
    injection Heq as Ha Hb Heq. subst a b.
    destruct (IH _ _ _ _ _ Heq) as (term & pre' & Hpre). subst pre.
    exists term,
      (Notified f0 PAIRADMIN_EVENT_INPUT buf0 len0
         :: Transmitted ldisc0 buf0' len0 :: pre').
    reflexivity.
Qed.

(** In a log made of call-site blocks, an INPUT call comes right before
    [ldisc_send] runs with the same length, unless the log ends with it
    because the call did not return. *)
Lemma hooked_input_followed (stuck : bool) (l : list Action) :
  hooked stuck l ->
  forall pre f buf len post,
    l = pre ++ Notified f PAIRADMIN_EVENT_INPUT buf len :: post ->
    (stuck = true /\ post = [])
    \/ exists ldisc buf' post', post = Transmitted ldisc buf' len :: post'.
Proof.
  induction 1 as [s|f0 buf0 len0|s term0 data0 len0 l Hl IH
                 |s ldisc0 buf0 len0 l Hl IH
                 |s term0 data0 len0 f0 l Hl IH
                 |s ldisc0 buf0 buf0' len0 f0 l Hl IH];
    intros pre f buf len post Heq.
  - destruct pre; discriminate Heq.
  - destruct pre as [|a [|b pre]]; try discriminate Heq.
    injection Heq as Hf Hb Hn Hpost. subst. left. split; reflexivity.
  - destruct pre as [|a pre]; [discriminate Heq|].
    injection Heq as Ha Heq. exact (IH _ _ _ _ _ Heq).
  - destruct pre as [|a pre]; [discriminate Heq|].
    injection Heq as Ha Heq. exact (IH _ _ _ _ _ Heq).
  - destruct pre as [|a [|b pre]]; [discriminate Heq|discriminate Heq|].
    injection Heq as Ha Hb Heq. exact (IH _ _ _ _ _ Heq).
  - destruct pre as [|a [|b pre]]; [|discriminate Heq|].
    + injection Heq as Hf Hb Hn Hpost. subst.
      right. exists ldisc0, buf0', l. reflexivity.
    + injection Heq as Ha Hb Heq. exact (IH _ _ _ _ _ Heq).
Qed.

End Shapes.

(** ** Callbacks that keep to the signature *)

Section Observed.

Context {E : Engine} {O : Observing}.

Implicit Types (w : World Heap Observer).

(** A chunk processed while a handler is the registered function: the site
    returns, the engine's step is the original one, and the observer's
    state and the slot are what the handler made of them. *)
Lemma process_observed (hd : Handler Observer) (c : Chunk) w :
  pairadmin_callback w <> NULL ->
  observes hd (pairadmin_callback w) ->
  val (process true c w) = val (process_original c w)
  /\ heap (st (process true c w)) = heap (st (process_original c w))
  /\ hwnd_terminal (st (process true c w)) = hwnd_terminal w
  /\ data_path (log (process true c w)) = [engine_action c]
  /\ observer (st (process true c w))
     = receive hd (pairadmin_callback w) (observer w) c
  /\ pairadmin_callback (st (process true c w))
     = snd (hd (fst (fst (event_of c))) (snd (fst (event_of c)))
               (snd (event_of c)) (observer w) (pairadmin_callback w)).
Proof.
  intros Hw Hobs.
  destruct c as [term data len|ldisc buf len]; unfold process, bind.
  - rewrite term_data_modified_registered by exact Hw.
    rewrite !Hobs. unfold observing, receive. cbn. rewrite ?Hobs.
    unfold observing. cbn. repeat split.
  - rewrite ldisc_send_modified_registered by exact Hw.
    rewrite !Hobs. unfold observing, receive. cbn. rewrite ?Hobs.
    unfold observing. cbn. repeat split.
Qed.

(** The observer's state after one chunk is its state before with the
    chunk's delivery, if any, replayed on it. *)
Lemma process_replay (hds : PairAdminCallback -> Handler Observer)
    (flag : bool) (c : Chunk) w :
  observational hds ->
  observer (st (process flag c w))
  = fold_left (replay hds) (delivered (log (process flag c w))) (observer w)
  /\ val (process flag c w) <> None.
Proof.
  intros Hobs. rewrite process_delivers_any.
  assert (Ho : observer (st (process_original c w)) = observer w
               /\ val (process_original c w) <> None).
  { destruct (process_original_frame c w) as (_ & _ & Ho & _ & _ & Hv).
    split; assumption. }
  destruct flag; cbn [andb]; [|rewrite process_disabled; exact Ho].
  destruct (Z.eq_dec (pairadmin_callback w) NULL) as [Hw|Hw].
  - rewrite process_unregistered by exact Hw.
    rewrite (proj2 (truthy_spec _) Hw). exact Ho.
  - rewrite (truthy_set _ Hw).
    destruct (process_observed (hds (pairadmin_callback w)) c w Hw
                               (Hobs _ Hw)) as (Hv & _ & _ & _ & Hr & _).
    rewrite Hr, Hv. split; [reflexivity|apply Ho].
Qed.

End Observed.

(** ** Another thread at the slot *)

Section Racing.

Context {E : Engine} {O : Observing}.

Implicit Types (w : World Heap Observer).

(** With no other thread at the slot the racing statement is the plain
    one. *)
Lemma notify_racing_quiet event data len w :
  notify_racing quiet event data len w = notify event data len w.
Proof.
  unfold notify_racing, notify, bind, load_callback; cbn.
  destruct (truthy (pairadmin_callback w)); [|reflexivity]. cbn.
  destruct (call (pairadmin_callback w) event data len w) as [[v|] s l];
    reflexivity.
Qed.

(** A hook that finds the slot empty at its test calls nobody, whatever
    other threads store afterwards. *)
Lemma notify_racing_unregistered (i : Interference) event data len w :
  pairadmin_callback w = NULL ->
  notify_racing i event data len w = mkRes (Some data) w [].
Proof.
  intros Hw. unfold notify_racing, bind, load_callback; cbn.
  rewrite Hw, truthy_NULL. reflexivity.
Qed.

(** With no other thread at the slot the racing sites are the modified
    sites. *)
Lemma term_data_modified_racing_quiet term data len w :
  term_data_modified_racing quiet term data len w
  = term_data_modified true term data len w.
Proof.
  unfold term_data_modified_racing, term_data_modified, term_data_hook.
  unfold bind at 1 3. cbn [call_term_data val st log].
  unfold bind. rewrite notify_racing_quiet. reflexivity.
Qed.

Lemma ldisc_send_modified_racing_quiet ldisc buf len w :
  ldisc_send_modified_racing quiet ldisc buf len w
  = ldisc_send_modified true ldisc buf len w.
Proof.
  unfold ldisc_send_modified_racing, ldisc_send_modified, ldisc_send_hook.
  unfold bind. rewrite notify_racing_quiet. reflexivity.
Qed.

End Racing.

Lemma subsequence_app {A : Type} (l1 l2 m1 m2 : list A) :
  subsequence l1 l2 -> subsequence m1 m2 -> subsequence (l1 ++ m1) (l2 ++ m2).
Proof.
  intros H1 H2. induction H1; cbn [app]; try constructor; assumption.
Qed.

Lemma subsequence_empty {A : Type} (l : list A) : subsequence [] l.
Proof.
  induction l; constructor; assumption.
Qed.

Lemma subsequence_length {A : Type} (l1 l2 : list A) :
  subsequence l1 l2 -> (length l1 <= length l2)%nat.
Proof.
  induction 1; cbn [length]; lia.
Qed.

(** ** Chunks that reach a well-behaved handler *)

Section Received.

Context {E : Engine} {O : Observing}.

Implicit Types (w : World Heap Observer).

(** A function that is a handler and keeps itself registered returns its
    own address for the slot. *)
Lemma observed_keeps_slot (hd : Handler Observer) (h : PairAdminCallback) :
  observes hd h -> keeps_registered h ->
  forall w event data len,
    pairadmin_callback w = h ->
    snd (hd event data len (observer w) (pairadmin_callback w)) = h.
Proof.
  intros Hobs Hk w event data len Hw.
  destruct (Hk event data len w Hw) as (w' & data' & Hc & Hs).
  rewrite Hobs in Hc. unfold observing in Hc. injection Hc as Hw' _.
  subst w'. exact Hs.
Qed.

(** Chunks processed while the handler [hd] is registered at [h] and keeps
    itself registered: the observer's state is [hd] applied to each chunk
    in turn, and the engine's own actions are the original ones. *)
Lemma run_chunks_received (hd : Handler Observer) (h : PairAdminCallback)
    (cs : list Chunk) :
  h <> NULL -> observes hd h -> keeps_registered h ->
  forall w,
    pairadmin_callback w = h ->
    observer (st (run true (map Data cs) w))
    = fold_left (receive hd h) cs (observer w)
    /\ data_path (log (run true (map Data cs) w)) = map engine_action cs
    /\ heap (st (run true (map Data cs) w)) = engine_memory cs (heap w).
Proof.
  intros Hh Hobs Hk. induction cs as [|c cs IH]; intros w Hw;
    [repeat split|].
  cbn [map]. rewrite run_cons, exec_data. cbn [val st log].
  assert (Hw' : pairadmin_callback w <> NULL) by (rewrite Hw; exact Hh).
  assert (Hobs' : observes hd (pairadmin_callback w))
    by (rewrite Hw; exact Hobs).
  destruct (process_observed hd c w Hw' Hobs')
    as (Hv & Hheap & _ & Hlog & Hrecv & Hslot).
  destruct (process_original_frame c w) as (_ & _ & _ & _ & Hmem & Hn).
  rewrite Hv. destruct (val (process_original c w)) as [v|]; [|contradiction].
  cbn [option_map val st log].
  rewrite (observed_keeps_slot hd h Hobs Hk w _ _ _ Hw) in Hslot.
  destruct (IH (st (process true c w)) Hslot) as (IHo & IHl & IHm).
  rewrite data_path_app, Hlog, IHo, IHl, IHm, Hrecv, Hheap, Hmem, Hw.
  repeat split. destruct c; reflexivity.
Qed.

(** The observer's state after any session is its state before with the
    deliveries replayed, when all callbacks are handlers. *)
Lemma run_replay (hds : PairAdminCallback -> Handler Observer)
    (flag : bool) (ops : list Op) :
  observational hds ->
  forall w,
    observer (st (run flag ops w))
    = fold_left (replay hds) (delivered (log (run flag ops w))) (observer w)
    /\ val (run flag ops w) <> None.
Proof.
  intros Hobs. induction ops as [|op ops IH]; intros w;
    [split; [reflexivity|discriminate]|].
  rewrite run_cons.
  assert (H : observer (st (exec flag op w))
              = fold_left (replay hds) (delivered (log (exec flag op w)))
                          (observer w)
              /\ val (exec flag op w) <> None).
  { destruct op as [c| | | |]; try (split; [reflexivity|discriminate]).
    rewrite exec_data; cbn [val st log].
    destruct (process_replay hds flag c w Hobs) as (Ho & Hv).
    split; [exact Ho|].
    destruct (val (process flag c w)); [discriminate|contradiction]. }
  destruct H as (Ho & Hv).
  destruct (val (exec flag op w)) as [vs|]; [|contradiction].
  cbn [val st log]. destruct (IH (st (exec flag op w))) as (IHo & IHv).
  rewrite delivered_app, fold_left_app, IHo, Ho. split; [reflexivity|].
  destruct (val (run flag ops _)); [discriminate|contradiction].
Qed.

End Received.

(** ** The event channel and the interception points *)

Section Claims.

Context {E : Engine} {O : Observing}.

Implicit Types (w : World Heap Observer).

(** C1.  While a handler is registered -- the function at [h] is in the
    slot, returns and does not overwrite the slot -- processing any
    sequence of output and input chunks calls it exactly once per chunk, in
    the order of the chunks, each time with the chunk's own bytes and
    length, and the session runs to its end.  When that function is the
    handler [hd], the observer's state afterwards is [hd] applied to every
    chunk's kind, bytes and length in turn, and the engine's own actions
    are the original ones in the same order.  Nothing is dropped, repeated,
    reordered or cut. *)
Theorem handler_gets_each_chunk_once_in_order
    (h : PairAdminCallback) (cs : list Chunk) :
  forall w,
    h <> NULL ->
    pairadmin_callback w = h ->
    keeps_registered h ->
    delivered (log (run true (map Data cs) w))
    = map (fun c => (h, event_of c)) cs
    /\ pairadmin_callback (st (run true (map Data cs) w)) = h
    /\ val (run true (map Data cs) w) <> None
    /\ (forall hd : Handler Observer,
          observes hd h ->
          observer (st (run true (map Data cs) w))
          = fold_left (receive hd h) cs (observer w)
          /\ data_path (log (run true (map Data cs) w))
             = map engine_action cs).
Proof.
  intros w Hh Hw Hk.
  destruct (run_chunks_registered h cs w Hh Hw Hk) as (Hd & Hs & Hv).
  split; [exact Hd|]. split; [exact Hs|]. split; [exact Hv|].
  intros hd Hobs.
  destruct (run_chunks_received hd h cs Hh Hobs Hk w Hw) as (Ho & Hl & _).
  split; assumption.
Qed.

(** C2 as amended.  At the input site, with a function [h] registered, the
    INPUT event is delivered to [h] first, carrying the bytes and the
    length that are about to be sent.  If [h] returns, [ldisc_send] then
    runs with the same pointer and length, on the bytes and the engine
    memory as [h] left them, and the site returns what [ldisc_send]
    returns; if [h] has left the bytes and the engine memory as they were,
    that is exactly the transmission of the unmodified site.  If [h] does
    not return, nothing is sent.  In the log of any session every INPUT
    event is followed at once by a transmission of the same length, unless
    the session is stuck in that call. *)
Theorem input_event_precedes_transmission
    (ldisc : Ldisc) (buf : buffer) (len : Z) (h : PairAdminCallback) w :
  h <> NULL ->
  pairadmin_callback w = h ->
  (exists rest,
      log (ldisc_send_modified true ldisc buf len w)
      = Notified h PAIRADMIN_EVENT_INPUT buf len :: rest)
  /\ (forall w' buf',
        code_at h PAIRADMIN_EVENT_INPUT buf len w = Some (w', buf') ->
        log (ldisc_send_modified true ldisc buf len w)
        = [Notified h PAIRADMIN_EVENT_INPUT buf len;
           Transmitted ldisc buf' len]
        /\ val (ldisc_send_modified true ldisc buf len w)
           = Some (fst (ldisc_send ldisc buf' len (heap w')))
        /\ heap (st (ldisc_send_modified true ldisc buf len w))
           = snd (ldisc_send ldisc buf' len (heap w')))
  /\ (forall w',
        code_at h PAIRADMIN_EVENT_INPUT buf len w = Some (w', buf) ->
        heap w' = heap w ->
        log (ldisc_send_modified true ldisc buf len w)
        = [Notified h PAIRADMIN_EVENT_INPUT buf len;
           Transmitted ldisc buf len]
        /\ val (ldisc_send_modified true ldisc buf len w)
           = Some (fst (ldisc_send ldisc buf len (heap w)))
        /\ heap (st (ldisc_send_modified true ldisc buf len w))
           = snd (ldisc_send ldisc buf len (heap w)))
  /\ (code_at h PAIRADMIN_EVENT_INPUT buf len w = None ->
      log (ldisc_send_modified true ldisc buf len w)
      = [Notified h PAIRADMIN_EVENT_INPUT buf len]
      /\ val (ldisc_send_modified true ldisc buf len w) = None)
  /\ (forall ops w0 pre f buf' len' post,
        log (run true ops w0)
        = pre ++ Notified f PAIRADMIN_EVENT_INPUT buf' len' :: post ->
        (val (run true ops w0) = None /\ post = [])
        \/ exists ldisc' buf'' post',
             post = Transmitted ldisc' buf'' len' :: post').
Proof.
  intros Hh Hw. subst h.
  rewrite ldisc_send_modified_registered by exact Hh.
  split; [|split; [|split; [|split]]].
  - destruct (code_at _ _ _ _ _) as [[w' buf']|]; eexists; reflexivity.
  - intros w' buf' Hc. rewrite Hc. repeat split.
  - intros w' Hc Hheap. rewrite Hc. cbn [val st log heap].
    rewrite Hheap. repeat split.
  - intros Hc. rewrite Hc. split; reflexivity.
  - intros ops w0 pre f buf' len' post Heq.
    destruct (hooked_input_followed _ _ (run_hooked true ops w0)
                                    _ _ _ _ _ Heq) as [(Hs & Hp)|H].
    + left. split; [|exact Hp]. unfold stuck_in_call in Hs.
      destruct (val (run true ops w0)); [discriminate|reflexivity].
    + right. exact H.
Qed.

(** C6.  At the output site, with a function [h] registered, [term_data]
    runs first and the OUTPUT event is delivered afterwards, to [h], with
    exactly the bytes and the length [term_data] was given: [h] is called on
    the state [term_data] has left, whose engine memory is what [term_data]
    made of it, and that is still the engine memory after the site when [h]
    does not write it.  In the log of any session, every OUTPUT event comes
    right after [term_data] ran on the same bytes and length: no event is
    delivered for bytes the engine has not consumed. *)
Theorem output_event_follows_processing
    (term : Terminal) (data : buffer) (len : Z) (h : PairAdminCallback) w :
  h <> NULL ->
  pairadmin_callback w = h ->
  log (term_data_modified true term data len w)
  = [Processed term data len; Notified h PAIRADMIN_EVENT_OUTPUT data len]
  /\ st (term_data_modified true term data len w)
     = st (call h PAIRADMIN_EVENT_OUTPUT data len
             (st (term_data_original term data len w)))
  /\ heap (st (term_data_original term data len w))
     = term_data term data len (heap w)
  /\ ((forall w1 w2 data',
         code_at h PAIRADMIN_EVENT_OUTPUT data len w1 = Some (w2, data') ->
         heap w2 = heap w1) ->
      heap (st (term_data_modified true term data len w))
      = term_data term data len (heap w))
  /\ (forall ops w0 pre f data' len' post,
        log (run true ops w0)
        = pre ++ Notified f PAIRADMIN_EVENT_OUTPUT data' len' :: post ->
        exists term' pre', pre = pre' ++ [Processed term' data' len']).
Proof.
  intros Hh Hw. subst h.
  rewrite term_data_modified_registered by exact Hh.
  unfold call, term_data_original.
  split; [|split; [|split; [|split]]].
  - destruct (code_at _ _ _ _ _) as [[w' data']|]; reflexivity.
  - cbn [call_term_data st pairadmin_callback].
    destruct (code_at _ _ _ _ _) as [[w' data']|]; reflexivity.
  - reflexivity.
  - intros Hframe.
    destruct (code_at _ _ _ _ _) as [[w' data']|] eqn:Hc; [|reflexivity].
    cbn [st]. rewrite (Hframe _ _ _ Hc). reflexivity.
  - intros ops w0. apply hooked_output_preceded with (stuck :=
      stuck_in_call (run true ops w0)). apply run_hooked.
Qed.

(** C4.  While the slot is [NULL] -- as it is at process start -- the hook
    calls nobody and changes nothing: it returns the state and the bytes it
    was given with an empty log, and any sequence of chunks is processed
    exactly as by the unmodified engine (same values, same state, same
    log), with no callback invocation. *)
Theorem notify_without_handler_is_noop w :
  pairadmin_callback w = NULL ->
  (forall event data len, notify event data len w = mkRes (Some data) w [])
  /\ (forall cs, run true (map Data cs) w = run_original cs w)
  /\ (forall cs, delivered (log (run true (map Data cs) w)) = [])
  /\ (forall cs, observer (st (run true (map Data cs) w)) = observer w).
Proof.
  intros Hw. split; [|split; [|split]].
  - intros event data len. apply notify_unregistered, Hw.
  - intros cs. apply run_unregistered, Hw.
  - intros cs. rewrite run_unregistered by exact Hw.
    destruct (run_original_frame cs w) as (_ & _ & _ & Hl & _).
    rewrite Hl. apply delivered_engine_actions.
  - intros cs. rewrite run_unregistered by exact Hw.
    apply run_original_frame.
Qed.

(** C7 as amended.  Unregistering on the engine's thread, in the middle of
    a session: whatever calls came before, once
    [pairadmin_set_callback(NULL)] has returned, the chunks the engine goes
    on to process reach no callback.  The deliveries of the whole session
    are those made before the call, the observer's state stays what it was
    when the call returned, and the slot stays [NULL].  A hook that begins
    with the slot empty calls nobody even if other threads store to the
    slot while it runs.  (The sites with another thread at the slot are the
    modified sites when that thread does nothing.) *)
Theorem no_notification_after_unregister
    (ops : list Op) (cs : list Chunk) w :
  delivered (log (run true (ops ++ SetCallback NULL :: map Data cs) w))
  = delivered (log (run true ops w))
  /\ observer (st (run true (ops ++ SetCallback NULL :: map Data cs) w))
     = observer (st (run true ops w))
  /\ (val (run true ops w) <> None ->
      pairadmin_callback
        (st (run true (ops ++ SetCallback NULL :: map Data cs) w))
      = NULL)
  /\ (forall (i : Interference) event data len w',
        pairadmin_callback w' = NULL ->
        notify_racing i event data len w' = mkRes (Some data) w' [])
  /\ (forall term data len w',
        term_data_modified_racing quiet term data len w'
        = term_data_modified true term data len w')
  /\ (forall ldisc buf len w',
        ldisc_send_modified_racing quiet ldisc buf len w'
        = ldisc_send_modified true ldisc buf len w').
Proof.
  split; [|split; [|split; [|split; [|split]]]];
    [| | |intros i event data len w'; apply notify_racing_unregistered
    |exact term_data_modified_racing_quiet
    |exact ldisc_send_modified_racing_quiet].
  all: rewrite run_app;
    destruct (val (run true ops w)) as [vs|];
    [|try reflexivity; intros H; contradiction].
  all: cbn [val st log]; rewrite run_cons;
    cbn [exec bind pairadmin_set_callback store_callback ret val st log].
  all: set (w1 := st (run true ops w));
    set (w2 := mkWorld (heap w1) NULL (hwnd_terminal w1) (observer w1));
    assert (Hw2 : pairadmin_callback w2 = NULL) by reflexivity;
    rewrite run_unregistered by exact Hw2;
    destruct (run_original_frame cs w2) as (Hs & _ & Ho & Hl & _).
  - rewrite delivered_app, Hl. cbn [app].
    rewrite delivered_engine_actions, app_nil_r. reflexivity.
  - rewrite Ho. reflexivity.
  - intros _. rewrite Hs. reflexivity.
Qed.

(** C8.  After any sequence of [pairadmin_set_callback] calls the slot holds
    the argument of the most recent one (what it held before, if there was
    none); a chunk processed next calls that function and no other -- one
    call if it is not [NULL], none if it is; and a further call with
    [NULL] clears the slot. *)
Theorem last_registration_wins
    (flag : bool) (cbs : list PairAdminCallback) w :
  pairadmin_callback (st (run flag (map SetCallback cbs) w))
  = last cbs (pairadmin_callback w)
  /\ (forall c,
        delivered (log (process true c (st (run flag (map SetCallback cbs) w))))
        = if truthy (last cbs (pairadmin_callback w))
          then [(last cbs (pairadmin_callback w), event_of c)]
          else [])
  /\ pairadmin_callback
       (st (pairadmin_set_callback NULL
              (st (run flag (map SetCallback cbs) w))))
     = NULL.
Proof.
  split; [apply run_registrations|split; [|reflexivity]].
  intros c. rewrite process_delivers, run_registrations. reflexivity.
Qed.

(** C9.  With [PAIRADMIN_INTEGRATION] not defined, every chunk is processed
    by exactly the statements of the unmodified engine, so a sequence of
    chunks gives the same values, state and log as the unmodified engine;
    and in any session, whatever has been stored in the slot, no callback
    is invoked, the observer's state never changes and the engine's view is
    that of the unmodified engine. *)
Theorem integration_disabled_is_original (ops : list Op) w :
  (forall c w', process false c w' = process_original c w')
  /\ (forall cs, run false (map Data cs) w = run_original cs w)
  /\ engine_view (run false ops w)
     = engine_view (run_original (chunks_of ops) w)
  /\ delivered (log (run false ops w)) = []
  /\ observer (st (run false ops w)) = observer w.
Proof.
  split; [exact process_disabled|].
  split; [intros cs; apply run_disabled|].
  split; [apply run_view; [discriminate|reflexivity]|].
  apply run_disabled_silent.
Qed.




End Claims.

(** ** The handler and the engine *)

Section NonInterference.

Context {E : Engine} {O1 O2 : Observing}.

(** C3 as amended.  The hooks route nothing from a callback to the engine.
    So when the callbacks are harmless -- each returns, has left the bytes
    it was shown as they were and has not written engine memory -- two
    sessions that feed the engine the same chunks from the same engine
    memory give the engine the same view (the values its call sites
    return, its memory, its own actions in order), whatever the two
    observers are, whatever is registered in either and whenever.  That
    view is the one of the unmodified engine fed those chunks: its memory
    is what [term_data] and [ldisc_send] make of it chunk by chunk, its
    actions are one per chunk, and one value comes back per chunk. *)
Theorem handler_cannot_influence_engine
    (ops1 ops2 : list Op)
    (w1 : World Heap (Observer (Observing := O1)))
    (w2 : World Heap (Observer (Observing := O2))) :
  harmless (O := O1) ->
  harmless (O := O2) ->
  chunks_of ops1 = chunks_of ops2 ->
  heap w1 = heap w2 ->
  engine_view (run true ops1 w1) = engine_view (run true ops2 w2)
  /\ engine_view (run true ops1 w1)
     = engine_view (run_original (chunks_of ops1) w1)
  /\ heap (st (run true ops1 w1)) = engine_memory (chunks_of ops1) (heap w1)
  /\ data_path (log (run true ops1 w1)) = map engine_action (chunks_of ops1)
  /\ exists vs,
       val (run true ops1 w1) = Some vs
       /\ length vs = length (chunks_of ops1).
Proof.
  intros H1 H2 Hc Hh.
  pose proof (run_view (O1 := O1) (O2 := O1) true ops1 (fun _ => H1)
                       w1 w1 eq_refl) as Hv1.
  split; [|split; [exact Hv1|]].
  - rewrite (run_view true ops1 (fun _ => H1) w1 w2 Hh).
    rewrite (run_view (O1 := O2) (O2 := O2) true ops2 (fun _ => H2)
                      w2 w2 eq_refl).
    rewrite Hc. reflexivity.
  - unfold engine_view in Hv1. injection Hv1 as Hval Hheap Hlog.
    destruct (run_original_frame (chunks_of ops1) w1)
      as (_ & _ & _ & Hl & Hm & vs & Hvs & Hn).
    rewrite Hheap, Hlog, Hval, Hl, Hm, data_path_engine_actions.
    split; [reflexivity|]. split; [reflexivity|].
    exists vs. split; assumption.
Qed.

End NonInterference.

(** ** The terminal window handle *)

Section Window.

Context {E : Engine} {O : Observing}.

Implicit Types (w : World Heap Observer).

(** C5.  With callbacks that leave [hwnd_terminal] alone:
    [putty_get_terminal_hwnd] returns [NULL] from process start until the
    window exists, through any calls that are not window events; once the
    window has been created with the non-null handle [h] it returns [h],
    through any number of chunks, registrations and queries; and once the
    window has been destroyed it returns [NULL] again, through any number of
    further calls.  A query changes no state. *)
Theorem terminal_hwnd_over_the_window_lifetime
    (flag : bool) (hp : Heap) (o : Observer) (h : HWND)
    (before during after : list Op) :
  leaves_hwnd_alone ->
  h <> NULL ->
  forallb no_window_event before = true ->
  forallb no_window_event during = true ->
  forallb no_window_event after = true ->
  val (putty_get_terminal_hwnd
         (st (run flag before (process_start hp o)))) = Some NULL
  /\ val (putty_get_terminal_hwnd
            (st (run flag (before ++ WindowCreated h :: during)
                     (process_start hp o)))) = Some h
  /\ val (putty_get_terminal_hwnd
            (st (run flag (before ++ WindowCreated h :: during)
                     (process_start hp o)))) <> Some NULL
  /\ val (putty_get_terminal_hwnd
            (st (run flag
                     (before ++ WindowCreated h :: during
                        ++ WindowDestroyed :: after)
                     (process_start hp o)))) = Some NULL
  /\ (forall w, st (putty_get_terminal_hwnd w) = w).
Proof.
  intros Hl Hh Hb Hd Ha.
  assert (H1 : forall w,
             hwnd_terminal (st (run flag (WindowCreated h :: during) w)) = h
             /\ val (run flag (WindowCreated h :: during) w) <> None).
  { intros w. rewrite run_cons.
    cbn [exec bind window_created store_hwnd ret val st log].
    destruct (run_hwnd flag during Hl
                (mkWorld (heap w) (pairadmin_callback w) h (observer w)) Hd)
      as (Hs & Hv).
    split; [exact Hs|].
    destruct (val (run flag during _)); [discriminate|contradiction]. }
  destruct (run_hwnd flag before Hl (process_start hp o) Hb) as (Hs0 & Hv0).
  assert (H2 : hwnd_terminal
                 (st (run flag (before ++ WindowCreated h :: during)
                          (process_start hp o))) = h
               /\ val (run flag (before ++ WindowCreated h :: during)
                          (process_start hp o)) <> None).
  { rewrite run_app.
    destruct (val (run flag before (process_start hp o))) as [vs|];
      [|contradiction].
    cbn [val st]. destruct (H1 (st (run flag before (process_start hp o))))
      as (Hs & Hv).
    split; [exact Hs|].
    destruct (val (run flag (WindowCreated h :: during) _));
      [discriminate|contradiction]. }
  destruct H2 as (Hs2 & Hv2).
  cbn [putty_get_terminal_hwnd load_hwnd val st].
  split; [rewrite Hs0; reflexivity|].
  split; [rewrite Hs2; reflexivity|].
  split; [rewrite Hs2; intros Heq; injection Heq as Heq; exact (Hh Heq)|].
  split; [|reflexivity].
  change (before ++ WindowCreated h :: during ++ WindowDestroyed :: after)
    with (before ++ (WindowCreated h :: during) ++ WindowDestroyed :: after).
  rewrite app_assoc, run_app.
  destruct (val (run flag (before ++ WindowCreated h :: during)
                     (process_start hp o))) as [vs|]; [|contradiction].
  cbn [st]. rewrite run_cons.
  cbn [exec bind window_destroyed store_hwnd ret val st log].
  match goal with
  | |- context [run flag after ?w'] =>
      destruct (run_hwnd flag after Hl w' Ha) as (Hs3 & _)
  end.
  rewrite Hs3. reflexivity.
Qed.

End Window.

(** * Further properties of the hooks and the slot *)

Section Further.

Context {E : Engine} {O : Observing}.

Implicit Types (w : World Heap Observer).

(** In any session, for any callbacks and either setting of the switch, the
    events delivered are a subsequence of the events of the chunks fed to
    the engine: at most one event per chunk, in the order of the chunks,
    each with a chunk's own kind, bytes and length.  The hooks never make
    up, repeat or reorder an event. *)
Theorem deliveries_are_a_subsequence_of_the_chunks
    (flag : bool) (ops : list Op) w :
  subsequence (map snd (delivered (log (run flag ops w))))
              (map event_of (chunks_of ops))
  /\ (length (delivered (log (run flag ops w)))
      <= length (chunks_of ops))%nat.
Proof.
  assert (H : forall ops w,
             subsequence (map snd (delivered (log (run flag ops w))))
                         (map event_of (chunks_of ops))).
  { clear ops w. induction ops as [|op ops IH]; intros w; [constructor|].
    rewrite run_cons.
    assert (H1 : subsequence (map snd (delivered (log (exec flag op w))))
                             (map event_of (chunks_of [op]))).
    { destruct op as [c| | | |]; [|constructor..].
      rewrite exec_data; cbn [log chunks_of map].
      rewrite process_delivers_any.
      destruct (flag && truthy (pairadmin_callback w)); cbn [map snd].
      - apply subsequence_take, subsequence_nil.
      - apply subsequence_skip, subsequence_nil. }
    replace (chunks_of (op :: ops)) with (chunks_of [op] ++ chunks_of ops)
      by (destruct op; reflexivity).
    rewrite map_app.
    destruct (val (exec flag op w)) as [vs|]; cbn [log].
    - rewrite delivered_app, map_app. apply subsequence_app; [exact H1|].
      apply IH.
    - rewrite <- (app_nil_r (map snd _)).
      apply subsequence_app; [exact H1|apply subsequence_empty]. }
  split; [apply H|].
  pose proof (subsequence_length _ _ (H ops w)) as Hlen.
  rewrite !length_map in Hlen. exact Hlen.
Qed.

(** A callback [h] that returns and leaves [g] in the slot whenever it is
    called hands over from inside its first call: [h] gets the first chunk
    and no other; if [g] is [NULL] (the callback unregisters itself) nobody
    gets the rest, otherwise [g] gets every one of them. *)
Theorem callback_rewriting_the_slot_hands_over
    (h g : PairAdminCallback) (c : Chunk) (cs : list Chunk) w :
  h <> NULL ->
  pairadmin_callback w = h ->
  hands_over h g ->
  (g = NULL \/ keeps_registered g) ->
  delivered (log (run true (map Data (c :: cs)) w))
  = (h, event_of c)
      :: (if truthy g then map (fun c' => (g, event_of c')) cs else []).
Proof.
  intros Hh Hw Hhg Hg. cbn [map]. rewrite run_cons, exec_data.
  assert (Hw' : pairadmin_callback w <> NULL) by (rewrite Hw; exact Hh).
  destruct (Hhg (fst (fst (event_of c))) (snd (fst (event_of c)))
                (snd (event_of c))
                (match c with
                 | Output term data len => st (call_term_data term data len w)
                 | Input _ _ _ => w
                 end)) as (w' & data' & Hc & Hs').
  { destruct c; exact Hw. }
  rewrite <- Hw in Hc.
  destruct (process_registered_returns c w w' data' Hw' Hc) as (Hv & Hs & _).
  cbn [val st log].
  destruct (val (process true c w)) as [v|]; [|contradiction].
  cbn [option_map log st].
  rewrite delivered_app, process_delivers, (truthy_set _ Hw'), Hw.
  cbn [app]. f_equal. rewrite Hs' in Hs.
  destruct (Z.eq_dec g NULL) as [Hn|Hn].
  - rewrite (proj2 (truthy_spec _) Hn).
    rewrite run_unregistered by (rewrite Hs; exact Hn).
    destruct (run_original_frame cs (st (process true c w)))
      as (_ & _ & _ & Hl & _).
    rewrite Hl. apply delivered_engine_actions.
  - rewrite (truthy_set _ Hn).
    destruct Hg as [Hg|Hg]; [contradiction|].
    apply (run_chunks_registered g cs _ Hn Hs Hg).
Qed.

(** Replacing a registered callback [h] by [g] between two chunks takes
    effect exactly at the call: every chunk processed before
    [pairadmin_set_callback(g)] goes to [h], every chunk processed after it
    goes to [g], none is lost or delivered twice at the switch.  When the
    two functions are the handlers [hd_h] and [hd_g], the observer's state
    afterwards is [hd_h] applied to the chunks before the call and then
    [hd_g] applied to the chunks after it. *)
Theorem reregistration_switches_at_the_call
    (h g : PairAdminCallback) (cs1 cs2 : list Chunk) w :
  h <> NULL -> g <> NULL ->
  pairadmin_callback w = h ->
  keeps_registered h -> keeps_registered g ->
  delivered
    (log (run true (map Data cs1 ++ SetCallback g :: map Data cs2) w))
  = map (fun c => (h, event_of c)) cs1 ++ map (fun c => (g, event_of c)) cs2
  /\ (forall hd_h hd_g : Handler Observer,
        observes hd_h h -> observes hd_g g ->
        observer
          (st (run true (map Data cs1 ++ SetCallback g :: map Data cs2) w))
        = fold_left (receive hd_g g) cs2
            (fold_left (receive hd_h h) cs1 (observer w))).
Proof.
  intros Hh Hg Hw Hkh Hkg. rewrite run_app.
  destruct (run_chunks_registered h cs1 w Hh Hw Hkh) as (Hd1 & _ & Hv1).
  destruct (val (run true (map Data cs1) w)) as [vs1|]; [|contradiction].
  cbn [val st log]. rewrite run_cons.
  cbn [exec bind pairadmin_set_callback store_callback ret val st log].
  set (w1 := st (run true (map Data cs1) w)).
  set (w2 := mkWorld (heap w1) g (hwnd_terminal w1) (observer w1)).
  assert (Hs : pairadmin_callback w2 = g) by reflexivity.
  destruct (run_chunks_registered g cs2 w2 Hg Hs Hkg) as (Hd2 & _).
  split.
  - rewrite delivered_app, Hd1. cbn [app]. rewrite Hd2. reflexivity.
  - intros hd_h hd_g Hoh Hog.
    destruct (run_chunks_received hd_g g cs2 Hg Hog Hkg w2 Hs) as (Ho2 & _).
    destruct (run_chunks_received hd_h h cs1 Hh Hoh Hkh w Hw) as (Ho1 & _).
    rewrite Ho2. cbn [observer w2]. unfold w1. rewrite Ho1. reflexivity.
Qed.

(** When every callback returns and none writes the slot, the slot after
    any session -- chunks, queries and window events included -- holds the
    argument of the last [pairadmin_set_callback] call of the session, or
    what it held before if the session makes none. *)
Theorem slot_holds_the_last_registration
    (flag : bool) (ops : list Op) :
  leaves_slot_alone ->
  forall w,
    pairadmin_callback (st (run flag ops w))
    = last_registration ops (pairadmin_callback w).
Proof.
  intros Hl w. apply (run_slot flag ops Hl w).
Qed.

(** When the callbacks are handlers, the observer's state after any session
    is the state it had before with the session's deliveries replayed on it
    in order: the bridge changes it through callback invocations and in no
    other way, so a session that delivers nothing leaves it as it was. *)
Theorem observer_state_is_replay_of_deliveries
    (hds : PairAdminCallback -> Handler Observer)
    (flag : bool) (ops : list Op) :
  observational hds ->
  forall w,
    observer (st (run flag ops w))
    = fold_left (replay hds) (delivered (log (run flag ops w))) (observer w).
Proof.
  intros Hobs w. apply (run_replay hds flag ops Hobs w).
Qed.

End Further.

(** * Worked sessions on the small engine *)

(** The scenario of the spec's section 8: register a handler, feed 4096
    bytes of output in two chunks of 2048, then one typed line.  The
    recorder's journal holds two OUTPUT events and one INPUT event, in that
    order, with the bytes as fed; the lengths of the OUTPUT events add up to
    4096; and the INPUT event is logged before the line is sent. *)
Example end_to_end_scenario :
  let r := run (E := plain_engine) (O := journal) true
               (SetCallback RECORDER :: map Data (two_chunks ++ [typed_line]))
               fresh in
  observer (st r)
  = [(PAIRADMIN_EVENT_OUTPUT, repeat x41 2048, 2048);
     (PAIRADMIN_EVENT_OUTPUT, repeat x42 2048, 2048);
     (PAIRADMIN_EVENT_INPUT, ls_line, 7)]
  /\ fold_right Z.add 0
       (map (fun e : PairAdminCallback * Event => snd (snd e))
            (filter (fun e : PairAdminCallback * Event =>
                       event_code (fst (fst (snd e))) =? 1)
                    (delivered (log r)))) = 4096
  /\ skipn 4 (log r)
     = [Notified RECORDER PAIRADMIN_EVENT_INPUT ls_line 7;
        Transmitted (E := plain_engine) tt ls_line 7]
  /\ heap (st r) = (repeat x41 2048 ++ repeat x42 2048, ls_line)
  /\ val r = Some [VVoid; VVoid; VSize 7].
Proof. vm_compute. repeat split. Qed.

(** A handler that unregisters itself from inside its first call is called
    once and never again. *)
Example one_shot_handler_is_called_once :
  delivered
    (log (run (E := plain_engine) (O := journal) true
              (SetCallback ONE_SHOT :: map Data (two_chunks ++ [typed_line]))
              fresh))
  = [(ONE_SHOT, (PAIRADMIN_EVENT_OUTPUT, repeat x41 2048, 2048))].
Proof. vm_compute. reflexivity. Qed.

(** ** What the sample callbacks are known to do *)

Lemma RECORDER_not_NULL : RECORDER <> NULL.
Proof. discriminate. Qed.

Lemma RECORDER_keeps_registered : keeps_registered (O := journal) RECORDER.
Proof.
  intros event data len w Hw. eexists _, _. split; [reflexivity|exact Hw].
Qed.

Lemma RECORDER_observes :
  observes (O := journal) (journal_code RECORDER) RECORDER.
Proof. intros event data len w. reflexivity. Qed.

Lemma journal_observational : observational (O := journal) journal_code.
Proof.
  intros f Hf event data len w. cbn [code_at journal].
  destruct (f =? NULL) eqn:Hn; [|reflexivity].
  apply Z.eqb_eq in Hn. contradiction.
Qed.

Lemma journal_harmless : harmless (O := journal).
Proof.
  intros f event data len w Hf.
  rewrite (journal_observational f Hf). eexists. split; reflexivity.
Qed.

Lemma journal_leaves_hwnd_alone : leaves_hwnd_alone (O := journal).
Proof.
  intros f event data len w Hf.
  rewrite (journal_observational f Hf). eexists _, _. split; reflexivity.
Qed.

Lemma bystander_observational :
  observational (O := bystander) (fun _ _ _ _ o slot => (o, slot)).
Proof.
  intros f Hf event data len w. cbn [code_at bystander].
  destruct (f =? NULL) eqn:Hn; [|reflexivity].
  apply Z.eqb_eq in Hn. contradiction.
Qed.

Lemma bystander_harmless : harmless (O := bystander).
Proof.
  intros f event data len w Hf.
  rewrite (bystander_observational f Hf). eexists. split; reflexivity.
Qed.

Lemma bystander_leaves_slot_alone : leaves_slot_alone (O := bystander).
Proof.
  intros f event data len w Hf.
  rewrite (bystander_observational f Hf). eexists _, _. split; reflexivity.
Qed.

(** ** The claims on the small engine *)

(** C1 on the two chunks of 2048 bytes with the recorder registered: two
    calls, and the journal holds the two events as fed. *)
Lemma handler_gets_each_chunk_once_in_order_witness :
  RECORDER <> NULL
  /\ pairadmin_callback recording = RECORDER
  /\ keeps_registered (O := journal) RECORDER
  /\ observes (O := journal) (journal_code RECORDER) RECORDER
  /\ delivered
       (log (run (E := plain_engine) (O := journal) true
                 (map Data two_chunks) recording))
     = [(RECORDER, (PAIRADMIN_EVENT_OUTPUT, repeat x41 2048, 2048));
        (RECORDER, (PAIRADMIN_EVENT_OUTPUT, repeat x42 2048, 2048))]
  /\ observer
       (st (run (E := plain_engine) (O := journal) true
                (map Data two_chunks) recording))
     = [(PAIRADMIN_EVENT_OUTPUT, repeat x41 2048, 2048);
        (PAIRADMIN_EVENT_OUTPUT, repeat x42 2048, 2048)].
Proof.
  split; [exact RECORDER_not_NULL|]. split; [reflexivity|].
  split; [exact RECORDER_keeps_registered|].
  split; [exact RECORDER_observes|].
  split.
  - exact (proj1 (handler_gets_each_chunk_once_in_order
                    (E := plain_engine) (O := journal)
                    RECORDER two_chunks recording RECORDER_not_NULL eq_refl
                    RECORDER_keeps_registered)).
  - exact (proj1 (proj2 (proj2 (proj2
             (handler_gets_each_chunk_once_in_order
                (E := plain_engine) (O := journal)
                RECORDER two_chunks recording RECORDER_not_NULL eq_refl
                RECORDER_keeps_registered)))
             (journal_code RECORDER) RECORDER_observes)).
Defined.

(** C2 as amended, on the typed line with the recorder registered: the
    event first, then the line on the wire, and the seven bytes reported
    sent. *)
Lemma input_event_precedes_transmission_witness :
  RECORDER <> NULL
  /\ pairadmin_callback recording = RECORDER
  /\ log (ldisc_send_modified (E := plain_engine) (O := journal) true tt
            ls_line 7 recording)
     = [Notified RECORDER PAIRADMIN_EVENT_INPUT ls_line 7;
        Transmitted (E := plain_engine) tt ls_line 7]
  /\ val (ldisc_send_modified (E := plain_engine) (O := journal) true tt
            ls_line 7 recording) = Some 7
  /\ heap (st (ldisc_send_modified (E := plain_engine) (O := journal) true tt
                 ls_line 7 recording)) = ([], ls_line).
Proof.
  split; [exact RECORDER_not_NULL|]. split; [reflexivity|].
  exact (proj1 (proj2 (input_event_precedes_transmission
                         (E := plain_engine) (O := journal) tt ls_line 7
                         RECORDER recording RECORDER_not_NULL eq_refl))
           (mkWorld ([], []) RECORDER NULL
                    [(PAIRADMIN_EVENT_INPUT, ls_line, 7)])
           ls_line eq_refl).
Defined.

(** C2 as stated fails.  With [SCRIBBLER] registered the typed line goes to
    the callback as typed, but what [ldisc_send] then transmits is seven
    X: the callback wrote through the pointer it was handed.  With
    [SLEEPER] registered the callback never returns and nothing is
    transmitted at all. *)
Lemma callback_can_alter_or_block_transmission :
  log (ldisc_send_modified (E := plain_engine) (O := intruder) true tt
         ls_line 7 (mkWorld ([], []) SCRIBBLER NULL tt))
  = [Notified SCRIBBLER PAIRADMIN_EVENT_INPUT ls_line 7;
     Transmitted (E := plain_engine) tt (repeat x58 7) 7]
  /\ heap (st (ldisc_send_modified (E := plain_engine) (O := intruder) true
                 tt ls_line 7 (mkWorld ([], []) SCRIBBLER NULL tt)))
     = ([], repeat x58 7)
  /\ heap (st (ldisc_send_original (E := plain_engine) (O := intruder)
                 tt ls_line 7 (mkWorld ([], []) SCRIBBLER NULL tt)))
     = ([], ls_line)
  /\ log (ldisc_send_modified (E := plain_engine) (O := intruder) true tt
            ls_line 7 (mkWorld ([], []) SLEEPER NULL tt))
     = [Notified SLEEPER PAIRADMIN_EVENT_INPUT ls_line 7]
  /\ val (ldisc_send_modified (E := plain_engine) (O := intruder) true tt
            ls_line 7 (mkWorld ([], []) SLEEPER NULL tt)) = None
  /\ heap (st (ldisc_send_modified (E := plain_engine) (O := intruder) true
                 tt ls_line 7 (mkWorld ([], []) SLEEPER NULL tt)))
     = ([], []).
Proof. repeat split. Qed.

(** C6 on a chunk of 2048 bytes with the recorder registered. *)
Lemma output_event_follows_processing_witness :
  RECORDER <> NULL
  /\ pairadmin_callback recording = RECORDER
  /\ log (term_data_modified (E := plain_engine) (O := journal) true tt
            (repeat x41 2048) 2048 recording)
     = [Processed (E := plain_engine) tt (repeat x41 2048) 2048;
        Notified RECORDER PAIRADMIN_EVENT_OUTPUT (repeat x41 2048) 2048].
Proof.
  split; [exact RECORDER_not_NULL|]. split; [reflexivity|].
  exact (proj1 (output_event_follows_processing
                  (E := plain_engine) (O := journal) tt (repeat x41 2048)
                  2048 RECORDER recording RECORDER_not_NULL eq_refl)).
Defined.

(** C4 at process start. *)
Lemma notify_without_handler_is_noop_witness :
  pairadmin_callback fresh = NULL
  /\ run (E := plain_engine) (O := journal) true
         (map Data (two_chunks ++ [typed_line])) fresh
     = run_original (two_chunks ++ [typed_line]) fresh
  /\ delivered
       (log (run (E := plain_engine) (O := journal) true
                 (map Data (two_chunks ++ [typed_line])) fresh))
     = [].
Proof.
  split; [reflexivity|].
  pose proof (notify_without_handler_is_noop
                (E := plain_engine) (O := journal) fresh eq_refl) as H.
  destruct H as (_ & Hrun & Hdel & _).
  split; [apply Hrun|apply Hdel].
Defined.

(** C3 as amended: the recorder registered and journalling against nothing
    registered and a bystander. *)
Lemma handler_cannot_influence_engine_witness :
  harmless (O := journal)
  /\ harmless (O := bystander)
  /\ chunks_of (E := plain_engine)
       (SetCallback RECORDER :: map Data (two_chunks ++ [typed_line]))
     = chunks_of (map Data (two_chunks ++ [typed_line]))
  /\ heap fresh
     = heap (process_start (E := plain_engine) (O := bystander) ([], []) tt)
  /\ engine_view
       (run (E := plain_engine) (O := journal) true
            (SetCallback RECORDER :: map Data (two_chunks ++ [typed_line]))
            fresh)
     = engine_view
         (run (E := plain_engine) (O := bystander) true
              (map Data (two_chunks ++ [typed_line]))
              (process_start (E := plain_engine) (O := bystander)
                             ([], []) tt)).
Proof.
  split; [exact journal_harmless|]. split; [exact bystander_harmless|].
  split; [reflexivity|]. split; [reflexivity|].
  exact (proj1 (handler_cannot_influence_engine
                  (E := plain_engine) (O1 := journal) (O2 := bystander)
                  (SetCallback RECORDER
                     :: map Data (two_chunks ++ [typed_line]))
                  (map Data (two_chunks ++ [typed_line]))
                  fresh
                  (process_start (E := plain_engine) (O := bystander)
                                 ([], []) tt)
                  journal_harmless bystander_harmless eq_refl eq_refl)).
Defined.

(** C3 as stated fails.  The same typed line from the same engine memory,
    once with nothing registered and once with [SCRIBBLER] registered: the
    engine transmits the line as typed in the first session and seven X in
    the second, and its memory differs accordingly. *)
Lemma scribbling_callback_changes_what_the_engine_sends :
  engine_view
    (run (E := plain_engine) (O := intruder) true [Data typed_line]
         (process_start (E := plain_engine) (O := intruder) ([], []) tt))
  = (Some [VSize 7], ([], ls_line),
     [Transmitted (E := plain_engine) tt ls_line 7])
  /\ engine_view
       (run (E := plain_engine) (O := intruder) true
            [SetCallback SCRIBBLER; Data typed_line]
            (process_start (E := plain_engine) (O := intruder) ([], []) tt))
     = (Some [VSize 7], ([], repeat x58 7),
        [Transmitted (E := plain_engine) tt (repeat x58 7) 7])
  /\ engine_view
       (run (E := plain_engine) (O := intruder) true
            [SetCallback SCRIBBLER; Data typed_line]
            (process_start (E := plain_engine) (O := intruder) ([], []) tt))
     <> engine_view
          (run (E := plain_engine) (O := intruder) true [Data typed_line]
               (process_start (E := plain_engine) (O := intruder)
                              ([], []) tt)).
Proof.
  split; [reflexivity|]. split; [reflexivity|].
  intros H. vm_compute in H. discriminate H.
Qed.

(** C5, queries before, during and after the window's life, with a
    registration, a delivered chunk and queries in between. *)
Lemma terminal_hwnd_over_the_window_lifetime_witness :
  leaves_hwnd_alone (O := journal)
  /\ 42 <> NULL
  /\ forallb (no_window_event (E := plain_engine)) [GetHwnd] = true
  /\ forallb (no_window_event (E := plain_engine))
       [SetCallback RECORDER; Data typed_line; GetHwnd] = true
  /\ val (putty_get_terminal_hwnd
            (st (run (E := plain_engine) (O := journal) true [GetHwnd]
                     fresh))) = Some NULL
  /\ val (putty_get_terminal_hwnd
            (st (run (E := plain_engine) (O := journal) true
                     ([GetHwnd] ++ WindowCreated 42
                        :: [SetCallback RECORDER; Data typed_line; GetHwnd])
                     fresh))) = Some 42
  /\ val (putty_get_terminal_hwnd
            (st (run (E := plain_engine) (O := journal) true
                     ([GetHwnd] ++ WindowCreated 42
                        :: [SetCallback RECORDER; Data typed_line; GetHwnd]
                        ++ WindowDestroyed :: [GetHwnd])
                     fresh))) = Some NULL.
Proof.
  assert (H : 42 <> NULL) by discriminate.
  split; [exact journal_leaves_hwnd_alone|]. split; [exact H|].
  split; [reflexivity|]. split; [reflexivity|].
  pose proof (terminal_hwnd_over_the_window_lifetime
                (E := plain_engine) (O := journal) true ([], []) [] 42
                [GetHwnd] [SetCallback RECORDER; Data typed_line; GetHwnd]
                [GetHwnd] journal_leaves_hwnd_alone H eq_refl eq_refl eq_refl)
    as (H1 & H2 & _ & H3 & _).
  split; [exact H1|]. split; [exact H2|exact H3].
Defined.

(** C7 as stated fails when the unregister call comes from another thread
    while a hook is running.  The recorder is registered and the typed line
    arrives.  If the other thread's [pairadmin_set_callback(NULL)] runs to
    its end after the hook has read the pointer for the call, the recorder
    is still called, after the unregister call returned, and journals the
    line.  If it runs to its end between the hook's test and that read, the
    hook calls through the null pointer and does not return. *)
Lemma unregister_racing_a_hook_does_not_stop_it :
  log (ldisc_send_modified_racing (E := plain_engine) (O := journal)
         (mkInterference [] [NULL]) tt ls_line 7 recording)
  = [Stored NULL;
     Notified RECORDER PAIRADMIN_EVENT_INPUT ls_line 7;
     Transmitted (E := plain_engine) tt ls_line 7]
  /\ observer
       (st (ldisc_send_modified_racing (E := plain_engine) (O := journal)
              (mkInterference [] [NULL]) tt ls_line 7 recording))
     = [(PAIRADMIN_EVENT_INPUT, ls_line, 7)]
  /\ log (ldisc_send_modified_racing (E := plain_engine) (O := journal)
            (mkInterference [NULL] []) tt ls_line 7 recording)
     = [Stored NULL; Notified NULL PAIRADMIN_EVENT_INPUT ls_line 7]
  /\ val (ldisc_send_modified_racing (E := plain_engine) (O := journal)
            (mkInterference [NULL] []) tt ls_line 7 recording) = None.
Proof. repeat split. Qed.


(** ** The further properties on the small engine *)

(** [ONE_SHOT] registered: it gets the first of three chunks and clears the
    slot from inside that call. *)
Lemma callback_rewriting_the_slot_hands_over_witness :
  ONE_SHOT <> NULL
  /\ hands_over (O := journal) ONE_SHOT NULL
  /\ delivered
       (log (run (E := plain_engine) (O := journal) true
                 (map Data (typed_line :: two_chunks))
                 (mkWorld ([], []) ONE_SHOT NULL [])))
     = [(ONE_SHOT, event_of typed_line)].
Proof.
  assert (H1 : ONE_SHOT <> NULL) by discriminate.
  assert (H2 : hands_over (O := journal) ONE_SHOT NULL)
    by (intros event data len w Hw; eexists _, _; split; reflexivity).
  split; [exact H1|]. split; [exact H2|].
  exact (callback_rewriting_the_slot_hands_over
           (E := plain_engine) (O := journal) ONE_SHOT NULL typed_line
           two_chunks (mkWorld ([], []) ONE_SHOT NULL [])
           H1 eq_refl H2 (or_introl eq_refl)).
Defined.

(** The recorder replaced by the function at 12288 after the two output
    chunks and before the typed line. *)
Lemma reregistration_switches_at_the_call_witness :
  RECORDER <> NULL /\ 12288 <> NULL
  /\ keeps_registered (O := journal) RECORDER
  /\ keeps_registered (O := journal) 12288
  /\ delivered
       (log (run (E := plain_engine) (O := journal) true
                 (map Data two_chunks
                    ++ SetCallback 12288 :: map Data [typed_line])
                 recording))
     = map (fun c => (RECORDER, event_of c)) two_chunks
         ++ map (fun c => (12288, event_of c)) [typed_line].
Proof.
  assert (H2 : 12288 <> NULL) by discriminate.
  assert (H4 : keeps_registered (O := journal) 12288)
    by (intros event data len w Hw; eexists _, _;
        split; [reflexivity|exact Hw]).
  split; [exact RECORDER_not_NULL|]. split; [exact H2|].
  split; [exact RECORDER_keeps_registered|]. split; [exact H4|].
  exact (proj1 (reregistration_switches_at_the_call
                  (E := plain_engine) (O := journal) RECORDER 12288
                  two_chunks [typed_line] recording RECORDER_not_NULL H2
                  eq_refl RECORDER_keeps_registered H4)).
Defined.

(** Two registrations around a chunk and a query, with callbacks that leave
    the slot alone. *)
Lemma slot_holds_the_last_registration_witness :
  leaves_slot_alone (O := bystander)
  /\ pairadmin_callback
       (st (run (E := plain_engine) (O := bystander) true
                [SetCallback RECORDER; Data typed_line;
                 SetCallback ONE_SHOT; GetHwnd]
                (process_start (E := plain_engine) (O := bystander)
                               ([], []) tt)))
     = ONE_SHOT.
Proof.
  split; [exact bystander_leaves_slot_alone|].
  exact (slot_holds_the_last_registration
           (E := plain_engine) (O := bystander) true
           [SetCallback RECORDER; Data typed_line; SetCallback ONE_SHOT;
            GetHwnd]
           bystander_leaves_slot_alone
           (process_start (E := plain_engine) (O := bystander) ([], []) tt)).
Defined.

(** The journal after the recorder has seen the two output chunks and the
    typed line is the three deliveries replayed on the empty journal. *)
Lemma observer_state_is_replay_of_deliveries_witness :
  observational (O := journal) journal_code
  /\ observer
       (st (run (E := plain_engine) (O := journal) true
                (SetCallback RECORDER
                   :: map Data (two_chunks ++ [typed_line])) fresh))
     = fold_left (replay (O := journal) journal_code)
         [(RECORDER, (PAIRADMIN_EVENT_OUTPUT, repeat x41 2048, 2048));
          (RECORDER, (PAIRADMIN_EVENT_OUTPUT, repeat x42 2048, 2048));
          (RECORDER, (PAIRADMIN_EVENT_INPUT, ls_line, 7))]
         [].
Proof.
  split; [exact journal_observational|].
  exact (observer_state_is_replay_of_deliveries
           (E := plain_engine) (O := journal) journal_code true
           (SetCallback RECORDER :: map Data (two_chunks ++ [typed_line]))
           journal_observational fresh).
Defined.
